(** * The booking data client ([frontend/src/services/api.ts])

    A shallow embedding of the four exported operations of the client
    ([getExperiences], [getExperienceById], [createBooking],
    [validatePromoCode]) and the properties of their static fallback.

    Conventions of the embedding.
    - A JavaScript [number] is an exact rational ([Q]); [NaN] and the
      infinities are left out, and [Math.round] is [floor (x + 1/2)]. The
      source computes in binary64, whose rounding is [Binary64.fl]: the
      amounts of a booking are stated where the two arithmetics agree.
    - A JavaScript string is a [string] of ASCII characters.
    - An [async] function is a computation in the monad [Async]: it
      threads the count of clock readings made so far and ends in a
      resolved value or in a rejection.
    - What the module gets from outside (the configured base address, the
      answers of the remote API, the static document, the clock and the
      host's time zone) is gathered in the record [Env]. *)

From Stdlib Require Import ZArith QArith Qabs Qround Qpower Lqa Ascii String List DecimalString DecimalZ Lia.
From stdpp Require Import gmap strings list fin_maps.

Local Open Scope string_scope.

(** ** The JavaScript platform *)

Module Js.

(** *** Numbers *)

Definition number : Type := Q.
Bind Scope Q_scope with number.

(** [Math.round]: the nearest integer, ties towards plus infinity. *)
Definition Math_round (x : number) : Z := Qfloor (x + (1 # 2))%Q.

(** A number is falsy when it is zero. *)
Definition falsy (x : number) : bool := Qeq_bool x 0%Q.

(** [a || b] on numbers. *)
Definition num_or (a b : number) : number := if falsy a then b else a.

Definition is_integer (x : number) : Prop := (inject_Z (Qfloor x) == x)%Q.

(** *** Strings *)

Definition upper_ascii (c : ascii) : ascii :=
  let n := nat_of_ascii c in
  if (97 <=? n)%nat && (n <=? 122)%nat then ascii_of_nat (n - 32) else c.

(** [s.toUpperCase()] *)
Fixpoint toUpperCase (s : string) : string :=
  match s with
  | EmptyString => EmptyString
  | String c r => String (upper_ascii c) (toUpperCase r)
  end.

(** [String(n)] for an integer [n] in the safe range: its decimal digits. *)
Definition String_of_Z (n : Z) : string := NilZero.string_of_int (Z.to_int n).

(** A string is truthy when it is not empty. *)
Definition truthy_string (s : string) : bool :=
  match s with EmptyString => false | String _ _ => true end.

(** [a || b] on strings. *)
Definition str_or (a b : string) : string := if truthy_string a then a else b.

(** *** Thrown values and promises *)

(** A thrown [Error] object: the name of its constructor and its message. *)
Record exn : Type := Exn { exn_name : string; exn_message : string }.

Inductive outcome (A : Type) : Type :=
| Resolved (a : A)
| Rejected (e : exn).
Arguments Resolved {A} a.
Arguments Rejected {A} e.

(** An asynchronous computation: from the number of clock readings made
    so far to its outcome and the number made when it settles. *)
Definition Async (A : Type) : Type := nat -> outcome A * nat.

Definition ret {A} (a : A) : Async A := fun t => (Resolved a, t).

Definition throw {A} (e : exn) : Async A := fun t => (Rejected e, t).

Definition bind {A B} (m : Async A) (k : A -> Async B) : Async B :=
  fun t =>
    match m t with
    | (Resolved a, t') => k a t'
    | (Rejected e, t') => (Rejected e, t')
    end.

(** [await] of a promise that is already settled. *)
Definition await {A} (p : outcome A) : Async A := fun t => (p, t).

(** [m.catch(h)] *)
Definition catch {A} (m : Async A) (h : exn -> Async A) : Async A :=
  fun t =>
    match m t with
    | (Resolved a, t') => (Resolved a, t')
    | (Rejected e, t') => h e t'
    end.

(** The outcome of a computation started after [t] clock readings. *)
Definition settle {A} (m : Async A) (t : nat) : outcome A := fst (m t).

(** The number of clock readings made when it settles. *)
Definition ticks {A} (m : Async A) (t : nat) : nat := snd (m t).

End Js.

Export Js.

Notation "'let*' x ':=' m 'in' k" := (bind m (fun x => k))
  (at level 10, x name, m at level 100, k at level 200).

(** ** Binary64 arithmetic

    The numbers of the source are IEEE 754 binary64 numbers: the result
    of an operation is the exact result rounded to the nearest number
    with 53 significant bits, ties to the even one. [Binary64] has this
    rounding on rationals; it is used to tell on which amounts the exact
    arithmetic of [number] is the arithmetic of the source. *)

Module Binary64.

Definition pow2 (e : Z) : Q := (2 ^ e)%Q.

(** The binary exponent of a positive rational [x]: the [e] with
    [2^e <= x < 2^(e+1)]. *)
Definition ilog2 (x : Q) : Z :=
  let e0 := (Z.log2 (Qnum x) - Z.log2 (Z.pos (Qden x)))%Z in
  if Qle_bool (pow2 e0) x then e0 else (e0 - 1)%Z.

(** The nearest integer, ties to the even one. *)
Definition roundEven (x : Q) : Z :=
  let f := Qfloor x in
  match (x - inject_Z f ?= 1 # 2)%Q with
  | Lt => f
  | Gt => (f + 1)%Z
  | Eq => if Z.even f then f else (f + 1)%Z
  end.

Definition emin : Z := -1022.

(** The spacing of the binary64 numbers around [x]: 53 significant bits,
    and the spacing of the subnormal numbers below [2^emin]. *)
Definition ulp (x : Q) : Q := pow2 (Z.max (ilog2 (Qabs x)) emin - 52).

(** Rounding to the nearest binary64 number, ties to even; the result
    is finite when the magnitude of [x] is below [2^1024]. *)
Definition fl (x : Q) : Q := (inject_Z (roundEven (x / ulp x)) * ulp x)%Q.

(** [x * y] and [x + y] on binary64 numbers. *)
Definition mul (x y : Q) : Q := fl (x * y).
Definition add (x y : Q) : Q := fl (x + y).

End Binary64.

(** ** Dates (ECMAScript, section "Date objects")

    A time value is a number of milliseconds since the epoch, in UTC. The
    time zone of the host is the function [LocalTZA] of ECMAScript:
    [tza t true] is the offset of local time from UTC, in milliseconds, at
    the instant [t], and [tza l false] is the offset in force at the local
    time [l], so daylight-saving changes are part of it. Time values stay
    in the range where a [Date] is valid. *)

Module Date.

Local Open Scope Z_scope.

Definition msPerDay : Z := 86400000.

Definition Day (t : Z) : Z := t / msPerDay.

Definition TimeWithinDay (t : Z) : Z := t mod msPerDay.

Definition DayFromYear (y : Z) : Z :=
  365 * (y - 1970) + (y - 1969) / 4 - (y - 1901) / 100 + (y - 1601) / 400.

(** The year of day [d]: the largest [y] with [DayFromYear y <= d],
    found next to the estimate by the mean length of a year. *)
Definition YearFromDay (d : Z) : Z :=
  let y := 1970 + (400 * d) / 146097 in
  if DayFromYear (y + 1) <=? d then y + 1
  else if DayFromYear y <=? d then y
  else y - 1.

Definition YearFromTime (t : Z) : Z := YearFromDay (Day t).

Definition DaysInYear (y : Z) : Z :=
  if negb (y mod 4 =? 0) then 365
  else if negb (y mod 100 =? 0) then 366
  else if negb (y mod 400 =? 0) then 365
  else 366.

Definition InLeapYear (y : Z) : Z := DaysInYear y - 365.

Definition DayWithinYear (t : Z) : Z := Day t - DayFromYear (YearFromTime t).

(** The day of the year on which month [m] (0 to 11) starts. *)
Definition monthStart (m leap : Z) : Z :=
  if m =? 0 then 0
  else if m =? 1 then 31
  else if m =? 2 then 59 + leap
  else if m =? 3 then 90 + leap
  else if m =? 4 then 120 + leap
  else if m =? 5 then 151 + leap
  else if m =? 6 then 181 + leap
  else if m =? 7 then 212 + leap
  else if m =? 8 then 243 + leap
  else if m =? 9 then 273 + leap
  else if m =? 10 then 304 + leap
  else 334 + leap.

Definition MonthFromTime (t : Z) : Z :=
  let d := DayWithinYear t in
  let leap := InLeapYear (YearFromTime t) in
  if d <? 31 then 0
  else if d <? 59 + leap then 1
  else if d <? 90 + leap then 2
  else if d <? 120 + leap then 3
  else if d <? 151 + leap then 4
  else if d <? 181 + leap then 5
  else if d <? 212 + leap then 6
  else if d <? 243 + leap then 7
  else if d <? 273 + leap then 8
  else if d <? 304 + leap then 9
  else if d <? 334 + leap then 10
  else 11.

Definition DateFromTime (t : Z) : Z :=
  DayWithinYear t - monthStart (MonthFromTime t) (InLeapYear (YearFromTime t)) + 1.

Definition HourFromTime (t : Z) : Z := (t / 3600000) mod 24.
Definition MinFromTime (t : Z) : Z := (t / 60000) mod 60.
Definition SecFromTime (t : Z) : Z := (t / 1000) mod 60.
Definition msFromTime (t : Z) : Z := t mod 1000.

(** [MakeDay (year, month, date)]: the day number of the [date]-th day
    counted from the first of the month, [date] free to leave the month. *)
Definition MakeDay (year month date : Z) : Z :=
  let ym := year + month / 12 in
  let mn := month mod 12 in
  DayFromYear ym + monthStart mn (InLeapYear ym) + date - 1.

Definition MakeDate (day time : Z) : Z := day * msPerDay + time.

(** [LocalTime (t)]: the local time of the instant [t]. *)
Definition LocalTime (tza : Z -> bool -> Z) (t : Z) : Z := t + tza t true.

(** [UTC (l)]: the instant of the local time [l]. *)
Definition UTC (tza : Z -> bool -> Z) (l : Z) : Z := l - tza l false.

(** [d.getDate()]: the day of the month, in local time. *)
Definition getDate (tza : Z -> bool -> Z) (t : Z) : Z := DateFromTime (LocalTime tza t).

(** [d.setDate(date)]: the new time value of [d]. The local time of day
    is kept and turned back into an instant. *)
Definition setDate (tza : Z -> bool -> Z) (t date : Z) : Z :=
  let l := LocalTime tza t in
  UTC tza (MakeDate (MakeDay (YearFromTime l) (MonthFromTime l) date) (TimeWithinDay l)).

(** [n] in decimal, padded with zeros on the left to [w] digits. *)
Definition pad (w : nat) (n : Z) : string :=
  let s := String_of_Z n in
  String.concat EmptyString (repeat "0"%string (w - String.length s)) ++ s.

(** The calendar date of a day number, as [toISOString] prints it. *)
Definition isoDateOfDay (d : Z) : string :=
  let t := d * msPerDay in
  let y := YearFromTime t in
  (if (0 <=? y) && (y <=? 9999) then pad 4 y
   else (if y <? 0 then "-" else "+") ++ pad 6 (Z.abs y))
  ++ "-" ++ pad 2 (MonthFromTime t + 1) ++ "-" ++ pad 2 (DateFromTime t).

(** [d.toISOString()] *)
Definition toISOString (t : Z) : string :=
  isoDateOfDay (Day t)
  ++ "T" ++ pad 2 (HourFromTime t) ++ ":" ++ pad 2 (MinFromTime t)
  ++ ":" ++ pad 2 (SecFromTime t) ++ "." ++ pad 3 (msFromTime t) ++ "Z".

(** [s.slice(0, n)] *)
Definition slice0 (n : nat) (s : string) : string := substring 0 n s.

(** [new Date()] and [Date.now()]: the next reading of the clock. *)
Definition now (clock : nat -> Z) : Async Z := fun t => (Resolved (clock t), S t).

End Date.

(** ** The data model of [api.ts] *)

(** An id of the static document: [string | number]. *)
Inductive RawId : Type :=
| IdString (s : string)
| IdNumber (n : Z).

(** [String(id)] *)
Definition String_of_id (i : RawId) : string :=
  match i with
  | IdString s => s
  | IdNumber n => String_of_Z n
  end.

Module Experience.
Record t : Type := {
  id : string;
  name : string;
  location : string;
  description : string;
  image : string;
  price : number;
}.
End Experience.

Module RawSlot.
Record t : Type := {
  id : RawId;
  date : string;
  time : string;
  availableSpots : number;
  totalSpots : number;
}.
End RawSlot.

Module RawExperience.
Record t : Type := {
  id : RawId;
  name : string;
  location : string;
  description : string;
  image : string;
  price : number;
  slots : option (list RawSlot.t);
}.
End RawExperience.

Module Slot.
Record t : Type := {
  id : string;
  experienceId : string;
  date : string;
  time : string;
  availableSpots : number;
  totalSpots : number;
}.
End Slot.

Module ExperienceDetail.
Record t : Type := {
  id : string;
  name : string;
  location : string;
  description : string;
  image : string;
  price : number;
  slots : list Slot.t;
}.
End ExperienceDetail.

Module BookingRequest.
Record t : Type := {
  experienceId : string;
  slotId : string;
  fullName : string;
  email : string;
  quantity : number;
  promoCode : option string;
  date : string;
  time : string;
}.
End BookingRequest.

Module BookingData.
Record t : Type := {
  bookingRef : string;
  experienceName : string;
  date : string;
  time : string;
  quantity : number;
  total : number;
}.
End BookingData.

Module BookingResponse.
Record t : Type := {
  success : bool;
  message : string;
  data : option BookingData.t;
}.
End BookingResponse.

Inductive PromoType : Type := percentage | flat.

Module Promo.
Record t : Type := { type : PromoType; value : number }.
End Promo.

Module PromoData.
Record t : Type := {
  code : string;
  type : PromoType;
  value : number;
  discount : number;
}.
End PromoData.

Module PromoValidation.
Record t : Type := {
  success : bool;
  data : option PromoData.t;
  message : option string;
}.
End PromoValidation.

(** An entry of the table [times] of [ensureSlots]. *)
Module TimeEntry.
Record t : Type := { time : string; slots : number }.
End TimeEntry.

(** The static document [/data/experiences.json]. *)
Module StaticJson.
Record t : Type := { experiences : option (list RawExperience.t) }.
End StaticJson.

(** ** What the module gets from outside *)

Record Env : Type := {
  (** [import.meta.env.VITE_API_URL] *)
  API_BASE_URL : option string;
  (** [api.get('/experiences')] followed by [response.data.data] *)
  api_get_experiences : outcome (list Experience.t);
  (** [api.get(`/experiences/${id}`)] followed by [response.data.data] *)
  api_get_experience : string -> outcome ExperienceDetail.t;
  (** [api.post('/bookings', booking)] followed by [response.data] *)
  api_post_bookings : BookingRequest.t -> outcome BookingResponse.t;
  (** [api.post('/promo/validate', { code, subtotal })] followed by [response.data] *)
  api_post_promo : string -> number -> outcome PromoValidation.t;
  (** [fetch('/data/experiences.json', ...)] followed by [res.json()] *)
  fetch_static : outcome StaticJson.t;
  (** the successive readings of the clock, in milliseconds *)
  clock : nat -> Z;
  (** the host's time zone: its offset from UTC, in milliseconds, at an
      instant ([true]) or at a local time ([false]) *)
  LocalTZA : Z -> bool -> Z;
}.

(** [if (API_BASE_URL)] *)
Definition configured (env : Env) : bool :=
  match API_BASE_URL env with
  | Some url => truthy_string url
  | None => false
  end.

(** [json.experiences || []] *)
Definition experiences_or_empty (json : StaticJson.t) : list RawExperience.t :=
  match StaticJson.experiences json with
  | Some l => l
  | None => []
  end.

(** [s.replace(/\/api\/?$/, '')]: the search tries the positions of [s]
    from the left; the pattern matches at a position when what is left of
    [s] from there is "/api" or "/api/", and the match is taken out. *)
Fixpoint replace_api_suffix (s : string) : string :=
  if String.eqb s "/api" || String.eqb s "/api/" then EmptyString
  else match s with
       | EmptyString => EmptyString
       | String c r => String c (replace_api_suffix r)
       end.

(** [API_ORIGIN]: the origin of the backend, for assets like images. *)
Definition API_ORIGIN (env : Env) : string :=
  replace_api_suffix
    (str_or match API_BASE_URL env with
            | Some url => url
            | None => EmptyString
            end EmptyString).

(** ** The operations *)

Section Operations.

Variable env : Env.

(** The mapping of the fallback of [getExperiences]. *)
Definition toExperience (e : RawExperience.t) : Experience.t :=
  {| Experience.id := String_of_id (RawExperience.id e);
     Experience.name := RawExperience.name e;
     Experience.location := RawExperience.location e;
     Experience.description := RawExperience.description e;
     Experience.image := RawExperience.image e;
     Experience.price := RawExperience.price e |}.

Definition getExperiences_static : Async (list Experience.t) :=
  let* json := await (fetch_static env) in
  ret (map toExperience (experiences_or_empty json)).

Definition getExperiences : Async (list Experience.t) :=
  if configured env
  then catch (await (api_get_experiences env)) (fun _ => getExperiences_static)
  else getExperiences_static.

(** The table [times] of [ensureSlots]. *)
Definition times : list TimeEntry.t :=
  [ {| TimeEntry.time := "07:00 am"; TimeEntry.slots := 4 |};
    {| TimeEntry.time := "9:00 am"; TimeEntry.slots := 2 |};
    {| TimeEntry.time := "11:00 am"; TimeEntry.slots := 5 |};
    {| TimeEntry.time := "1:00 pm"; TimeEntry.slots := 0 |} ].

(** The body of the inner loop: the slot pushed for the entry [t]. *)
Definition pushed (found : RawExperience.t) (date : string) (t : TimeEntry.t)
  : RawSlot.t :=
  {| RawSlot.id :=
       IdString (String_of_id (RawExperience.id found) ++ "-" ++ date ++ "-"
                 ++ TimeEntry.time t);
     RawSlot.date := date;
     RawSlot.time := TimeEntry.time t;
     RawSlot.availableSpots := TimeEntry.slots t;
     RawSlot.totalSpots := 10%Q |}.

(** The outer loop of [ensureSlots], over the values of [i] left to run. *)
Fixpoint ensureSlots_loop (found : RawExperience.t) (todo : list nat)
    (out : list RawSlot.t) : Async (list RawSlot.t) :=
  match todo with
  | [] => ret out
  | i :: rest =>
      let* d := Date.now (clock env) in
      let d := Date.setDate (LocalTZA env) d
                 (Date.getDate (LocalTZA env) d + Z.of_nat i + 1)%Z in
      let date := Date.slice0 10 (Date.toISOString d) in
      ensureSlots_loop found rest
        (fold_left (fun out t => (out ++ [pushed found date t])%list) times out)
  end.

Definition ensureSlots (found : RawExperience.t) : Async (list RawSlot.t) :=
  match RawExperience.slots found with
  | Some (s :: l) => ret (s :: l)
  | _ => ensureSlots_loop found (seq 0 5) []
  end.

Definition toSlot (found : RawExperience.t) (s : RawSlot.t) : Slot.t :=
  {| Slot.id := String_of_id (RawSlot.id s);
     Slot.experienceId := String_of_id (RawExperience.id found);
     Slot.date := RawSlot.date s;
     Slot.time := RawSlot.time s;
     Slot.availableSpots := RawSlot.availableSpots s;
     Slot.totalSpots := RawSlot.totalSpots s |}.

Definition getExperienceById_static (id : string) : Async ExperienceDetail.t :=
  let* json := await (fetch_static env) in
  match find (fun e => String.eqb (String_of_id (RawExperience.id e)) id)
             (experiences_or_empty json) with
  | None => throw (Exn "Error" "Experience not found in static data")
  | Some found =>
      let* raw := ensureSlots found in
      ret {| ExperienceDetail.id := String_of_id (RawExperience.id found);
             ExperienceDetail.name := RawExperience.name found;
             ExperienceDetail.location := RawExperience.location found;
             ExperienceDetail.description := RawExperience.description found;
             ExperienceDetail.image := RawExperience.image found;
             ExperienceDetail.price := RawExperience.price found;
             ExperienceDetail.slots := map (toSlot found) raw |}
  end.

Definition getExperienceById (id : string) : Async ExperienceDetail.t :=
  if configured env
  then catch (await (api_get_experience env id)) (fun _ => getExperienceById_static id)
  else getExperienceById_static id.

Definition createBooking_static (booking : BookingRequest.t) : Async BookingResponse.t :=
  let* priceRes :=
    catch (let* r := getExperienceById (BookingRequest.experienceId booking) in
           ret (Some r))
          (fun _ => ret None) in
  let unit := match priceRes with
              | Some r => ExperienceDetail.price r
              | None => 1000%Q
              end in
  let qty := num_or (BookingRequest.quantity booking) 1%Q in
  let base := (unit * qty)%Q in
  let taxes := Math_round (base * 0.05)%Q in
  let total := (base + inject_Z taxes)%Q in
  let* stamp := Date.now (clock env) in
  ret {| BookingResponse.success := true;
         BookingResponse.message := "Simulated booking (static demo).";
         BookingResponse.data := Some
           {| BookingData.bookingRef := "DEMO-" ++ String_of_Z stamp;
              (* [priceRes?.name || 'Experience']: without a detail the left
                 operand is [undefined], falsy like the empty string *)
              BookingData.experienceName :=
                str_or match priceRes with
                       | Some r => ExperienceDetail.name r
                       | None => EmptyString
                       end "Experience";
              BookingData.date := BookingRequest.date booking;
              BookingData.time := BookingRequest.time booking;
              BookingData.quantity := qty;
              BookingData.total := total |} |}.

Definition createBooking (booking : BookingRequest.t) : Async BookingResponse.t :=
  if configured env
  then catch (await (api_post_bookings env booking)) (fun _ => createBooking_static booking)
  else createBooking_static booking.

(** The table [promos] of [validatePromoCode]. The keys that an object
    inherits all have a lowercase letter, so no uppercased code reaches
    them: the lookup is that of a finite map. *)
Definition promos : gmap string Promo.t :=
  <[ "SAVE10" := {| Promo.type := percentage; Promo.value := 10%Q |} ]>
  (<[ "FLAT100" := {| Promo.type := flat; Promo.value := 100%Q |} ]>
  (<[ "WELCOME20" := {| Promo.type := percentage; Promo.value := 20%Q |} ]> ∅)).

Definition validatePromoCode_static (code : string) (subtotal : number)
  : Async PromoValidation.t :=
  match promos !! toUpperCase code with
  | None =>
      ret {| PromoValidation.success := false;
             PromoValidation.data := None;
             PromoValidation.message := Some "Invalid promo code" |}
  | Some p =>
      let discount :=
        match Promo.type p with
        | percentage => inject_Z (Math_round ((subtotal * Promo.value p) / 100))%Q
        | flat => Promo.value p
        end in
      ret {| PromoValidation.success := true;
             PromoValidation.data := Some
               {| PromoData.code := toUpperCase code;
                  PromoData.type := Promo.type p;
                  PromoData.value := Promo.value p;
                  PromoData.discount := discount |};
             PromoValidation.message := None |}
  end.

Definition validatePromoCode (code : string) (subtotal : number)
  : Async PromoValidation.t :=
  if configured env
  then catch (await (api_post_promo env code subtotal))
             (fun _ => validatePromoCode_static code subtotal)
  else validatePromoCode_static code subtotal.

End Operations.

(** * The vocabulary of the properties *)

(** ** Paths and entries *)

(** The path taken when no backend is configured or the remote call
    [call] failed. *)
Definition fallback {A : Type} (env : Env) (call : outcome A) : Prop :=
  configured env = false \/ exists e, call = Rejected e.

(** [e] carries the id [id] once both are turned into strings. *)
Definition has_id (id : string) (e : RawExperience.t) : Prop :=
  String_of_id (RawExperience.id e) = id.

(** [found] is the first entry of [l] that carries [id]. *)
Definition first_with_id (id : string) (l : list RawExperience.t)
    (found : RawExperience.t) : Prop :=
  exists pre post,
    l = (pre ++ found :: post)%list /\ Forall (fun e => ~ has_id id e) pre /\ has_id id found.

Definition id_test (id : string) (e : RawExperience.t) : bool :=
  String.eqb (String_of_id (RawExperience.id e)) id.

(** ** Promo codes *)

Definition percentPromo (v : number) : Promo.t :=
  {| Promo.type := percentage; Promo.value := v |}.

Definition flatPromo (v : number) : Promo.t :=
  {| Promo.type := flat; Promo.value := v |}.

(** The failure object of an unknown code. *)
Definition promoFailure : PromoValidation.t :=
  {| PromoValidation.success := false;
     PromoValidation.data := None;
     PromoValidation.message := Some "Invalid promo code" |}.

(** The success object of the promotion [p] stored under [code]. *)
Definition promoSuccess (code : string) (p : Promo.t) (discount : number)
  : PromoValidation.t :=
  {| PromoValidation.success := true;
     PromoValidation.data := Some
       {| PromoData.code := code;
          PromoData.type := Promo.type p;
          PromoData.value := Promo.value p;
          PromoData.discount := discount |};
     PromoValidation.message := None |}.

(** ** Listings *)

(** Two raw entries that agree on everything but their slots. *)
Definition same_listing (e e' : RawExperience.t) : Prop :=
  RawExperience.id e = RawExperience.id e' /\
  RawExperience.name e = RawExperience.name e' /\
  RawExperience.location e = RawExperience.location e' /\
  RawExperience.description e = RawExperience.description e' /\
  RawExperience.image e = RawExperience.image e' /\
  RawExperience.price e = RawExperience.price e'.

(** [x] carries the six fields of the raw entry [e], the id as a string. *)
Definition listed (e : RawExperience.t) (x : Experience.t) : Prop :=
  Experience.id x = String_of_id (RawExperience.id e) /\
  Experience.name x = RawExperience.name e /\
  Experience.location x = RawExperience.location e /\
  Experience.description x = RawExperience.description e /\
  Experience.image x = RawExperience.image e /\
  Experience.price x = RawExperience.price e.

(** ** Details and synthesized slots *)

(** The first ten characters of [toISOString] at the instant [x]. *)
Definition isoDate (x : Z) : string := Date.slice0 10 (Date.toISOString x).

(** The instant whose date the [i]-th round of the loop prints, when the
    loop starts after [t] clock readings. *)
Definition slotInstant (env : Env) (t i : nat) : Z :=
  Date.UTC (LocalTZA env)
    (Date.LocalTime (LocalTZA env) (clock env (t + i))
     + (Z.of_nat i + 1) * Date.msPerDay)%Z.

(** The host is at the offset [tza] from UTC all the time. *)
Definition fixed_offset (env : Env) (tza : Z) : Prop :=
  forall (x : Z) (isUTC : bool), LocalTZA env x isUTC = tza.

(** The entry has no [slots], or an empty array of them. *)
Definition no_slots (e : RawExperience.t) : Prop :=
  RawExperience.slots e = None \/ RawExperience.slots e = Some [].

(** The detail built from the entry [found] and its raw slots. *)
Definition detailOf (found : RawExperience.t) (raw : list RawSlot.t) : ExperienceDetail.t :=
  {| ExperienceDetail.id := String_of_id (RawExperience.id found);
     ExperienceDetail.name := RawExperience.name found;
     ExperienceDetail.location := RawExperience.location found;
     ExperienceDetail.description := RawExperience.description found;
     ExperienceDetail.image := RawExperience.image found;
     ExperienceDetail.price := RawExperience.price found;
     ExperienceDetail.slots := map (toSlot found) raw |}.

(** The rejection of the static path for an id that is not in the document. *)
Definition NotFoundError : exn := Exn "Error" "Experience not found in static data".

(** The id of a synthesized slot, from the id of the experience, the date
    and the time. *)
Definition slotIdOf (eid date time : string) : string :=
  eid ++ "-" ++ date ++ "-" ++ time.

Definition synthesized (eid date time : string) (spots : number) : Slot.t :=
  {| Slot.id := slotIdOf eid date time;
     Slot.experienceId := eid;
     Slot.date := date;
     Slot.time := time;
     Slot.availableSpots := spots;
     Slot.totalSpots := 10 |}.

(** The four slots of one day, in the order of the source. *)
Definition synthesizedDay (eid date : string) : list Slot.t :=
  [ synthesized eid date "07:00 am" 4;
    synthesized eid date "9:00 am" 2;
    synthesized eid date "11:00 am" 5;
    synthesized eid date "1:00 pm" 0 ].

(** ** Bookings *)

(** What the price lookup of [createBooking] leaves in [priceRes]: the
    detail, or [null] when [getExperienceById] rejected. *)
Definition priceLookup (env : Env) (booking : BookingRequest.t) (t : nat)
  : option ExperienceDetail.t :=
  match settle (getExperienceById env (BookingRequest.experienceId booking)) t with
  | Resolved r => Some r
  | Rejected _ => None
  end.

(** The price the booking is computed with. *)
Definition unitPrice (env : Env) (booking : BookingRequest.t) (t : nat) : number :=
  match priceLookup env booking t with
  | Some r => ExperienceDetail.price r
  | None => 1000
  end.

(** The number of clock readings made when the lookup has settled. *)
Definition lookupTicks (env : Env) (booking : BookingRequest.t) (t : nat) : nat :=
  ticks (getExperienceById env (BookingRequest.experienceId booking)) t.

(** The quantity the booking is computed with. *)
Definition effectiveQuantity (booking : BookingRequest.t) : number :=
  if Qeq_bool (BookingRequest.quantity booking) 0 then 1 else BookingRequest.quantity booking.

(** The response of the simulated booking. *)
Definition simulated (data : BookingData.t) : BookingResponse.t :=
  {| BookingResponse.success := true;
     BookingResponse.message := "Simulated booking (static demo).";
     BookingResponse.data := Some data |}.

(** ** A sample document, three hosts and a request *)

Definition kayaking : RawExperience.t :=
  {| RawExperience.id := IdNumber 1;
     RawExperience.name := "Kayaking";
     RawExperience.location := "Udupi";
     RawExperience.description := "Curated small-group experience.";
     RawExperience.image := "/images/kayaking.jpg";
     RawExperience.price := 1000;
     RawExperience.slots := None |}.

Definition sunrise : RawExperience.t :=
  {| RawExperience.id := IdString "2";
     RawExperience.name := "Nandi Hills Sunrise";
     RawExperience.location := "Bangalore";
     RawExperience.description := "Sunrise trek.";
     RawExperience.image := "/images/nandi.jpg";
     RawExperience.price := 899;
     RawExperience.slots := Some
       [ {| RawSlot.id := IdNumber 21; RawSlot.date := "2025-11-05";
            RawSlot.time := "07:00 am"; RawSlot.availableSpots := 0;
            RawSlot.totalSpots := 10 |} ] |}.

Definition coffeeTrail : RawExperience.t :=
  {| RawExperience.id := IdNumber 3;
     RawExperience.name := "Coffee Trail";
     RawExperience.location := "Coorg";
     RawExperience.description := "Plantation walk.";
     RawExperience.image := "/images/coffee.jpg";
     RawExperience.price := 1299.5;
     RawExperience.slots := Some [] |}.

Definition demoJson : StaticJson.t :=
  {| StaticJson.experiences := Some [kayaking; sunrise; coffeeTrail] |}.

Definition networkError : exn := Exn "AxiosError" "Network Error".

(** No backend configured: a static deployment. The clock starts at
    2025-11-02T01:43:01.123Z and the host is at UTC+05:30. *)
Definition demoEnv : Env :=
  {| API_BASE_URL := None;
     api_get_experiences := Rejected networkError;
     api_get_experience := fun _ => Rejected networkError;
     api_post_bookings := fun _ => Rejected networkError;
     api_post_promo := fun _ _ => Rejected networkError;
     fetch_static := Resolved demoJson;
     clock := fun n => (1762047781123 + Z.of_nat n)%Z;
     LocalTZA := fun _ _ => 19800000%Z |}.

(** A backend is configured and every call to it fails. *)
Definition downEnv : Env :=
  {| API_BASE_URL := Some "https://backend.example/api";
     api_get_experiences := Rejected networkError;
     api_get_experience := fun _ => Rejected networkError;
     api_post_bookings := fun _ => Rejected networkError;
     api_post_promo := fun _ _ => Rejected networkError;
     fetch_static := Resolved demoJson;
     clock := fun n => (1762047781123 + Z.of_nat n)%Z;
     LocalTZA := fun _ _ => 0%Z |}.

(** A static deployment on a host at UTC+05:30 whose clock stands at
    2025-11-01T20:00:00.000Z: there it is 01:30 on the 2nd of November. *)
Definition eastEnv : Env :=
  {| API_BASE_URL := None;
     api_get_experiences := Rejected networkError;
     api_get_experience := fun _ => Rejected networkError;
     api_post_bookings := fun _ => Rejected networkError;
     api_post_promo := fun _ _ => Rejected networkError;
     fetch_static := Resolved demoJson;
     clock := fun _ => 1762027200000%Z;
     LocalTZA := fun _ _ => 19800000%Z |}.

(** The dates of the slots of an outcome, in order. *)
Definition slotDates (o : outcome ExperienceDetail.t) : list string :=
  match o with
  | Resolved d => map Slot.date (ExperienceDetail.slots d)
  | Rejected _ => []
  end.

Definition bookingFor (experienceId : string) (quantity : number) : BookingRequest.t :=
  {| BookingRequest.experienceId := experienceId;
     BookingRequest.slotId := "21";
     BookingRequest.fullName := "Asha Rao";
     BookingRequest.email := "asha@example.com";
     BookingRequest.quantity := quantity;
     BookingRequest.promoCode := None;
     BookingRequest.date := "2025-11-05";
     BookingRequest.time := "07:00 am" |}.

(** ** Requests and documents that differ in one respect *)

Definition withQuantity (q : number) (b : BookingRequest.t) : BookingRequest.t :=
  {| BookingRequest.experienceId := BookingRequest.experienceId b;
     BookingRequest.slotId := BookingRequest.slotId b;
     BookingRequest.fullName := BookingRequest.fullName b;
     BookingRequest.email := BookingRequest.email b;
     BookingRequest.quantity := q;
     BookingRequest.promoCode := BookingRequest.promoCode b;
     BookingRequest.date := BookingRequest.date b;
     BookingRequest.time := BookingRequest.time b |}.

Definition withSlotId (slot : string) (b : BookingRequest.t) : BookingRequest.t :=
  {| BookingRequest.experienceId := BookingRequest.experienceId b;
     BookingRequest.slotId := slot;
     BookingRequest.fullName := BookingRequest.fullName b;
     BookingRequest.email := BookingRequest.email b;
     BookingRequest.quantity := BookingRequest.quantity b;
     BookingRequest.promoCode := BookingRequest.promoCode b;
     BookingRequest.date := BookingRequest.date b;
     BookingRequest.time := BookingRequest.time b |}.

(** The static document with the available spots of every slot replaced
    by what [f] gives. *)
Definition setSpots (f : RawSlot.t -> number) (s : RawSlot.t) : RawSlot.t :=
  {| RawSlot.id := RawSlot.id s;
     RawSlot.date := RawSlot.date s;
     RawSlot.time := RawSlot.time s;
     RawSlot.availableSpots := f s;
     RawSlot.totalSpots := RawSlot.totalSpots s |}.

Definition respot (f : RawSlot.t -> number) (e : RawExperience.t) : RawExperience.t :=
  {| RawExperience.id := RawExperience.id e;
     RawExperience.name := RawExperience.name e;
     RawExperience.location := RawExperience.location e;
     RawExperience.description := RawExperience.description e;
     RawExperience.image := RawExperience.image e;
     RawExperience.price := RawExperience.price e;
     RawExperience.slots := option_map (map (setSpots f)) (RawExperience.slots e) |}.

Definition respotEnv (f : RawSlot.t -> number) (env : Env) : Env :=
  {| API_BASE_URL := API_BASE_URL env;
     api_get_experiences := api_get_experiences env;
     api_get_experience := api_get_experience env;
     api_post_bookings := api_post_bookings env;
     api_post_promo := api_post_promo env;
     fetch_static :=
       match fetch_static env with
       | Resolved json =>
           Resolved {| StaticJson.experiences :=
                         option_map (map (respot f)) (StaticJson.experiences json) |}
       | Rejected e => Rejected e
       end;
     clock := clock env;
     LocalTZA := LocalTZA env |}.

(** Two outcomes of the lookup that [createBooking] cannot tell apart. *)
Definition same_price_and_name (o o' : outcome ExperienceDetail.t) : Prop :=
  match o, o' with
  | Resolved d, Resolved d' =>
      ExperienceDetail.price d = ExperienceDetail.price d' /\
      ExperienceDetail.name d = ExperienceDetail.name d'
  | Rejected _, Rejected _ => True
  | _, _ => False
  end.

(** ** A backend that answers *)

(** The detail the sample backend has for the experience 1: its price
    differs from that of the static document. *)
Definition remoteKayaking : ExperienceDetail.t :=
  {| ExperienceDetail.id := "1";
     ExperienceDetail.name := "Kayaking";
     ExperienceDetail.location := "Udupi";
     ExperienceDetail.description := "Curated small-group experience.";
     ExperienceDetail.image := "/uploads/kayaking.jpg";
     ExperienceDetail.price := 1500;
     ExperienceDetail.slots := [] |}.

Definition remoteBooking : BookingResponse.t :=
  {| BookingResponse.success := false;
     BookingResponse.message := "Not enough spots available";
     BookingResponse.data := None |}.

Definition remotePromo : PromoValidation.t :=
  {| PromoValidation.success := false;
     PromoValidation.data := None;
     PromoValidation.message := Some "Promo code expired" |}.

(** A host with the base address [url] whose backend answers every call
    but the posting of bookings, which does as [post] says. *)
Definition backendEnv (url : string)
    (post : BookingRequest.t -> outcome BookingResponse.t) : Env :=
  {| API_BASE_URL := Some url;
     api_get_experiences := Resolved [toExperience kayaking];
     api_get_experience := fun id =>
       if String.eqb id "1" then Resolved remoteKayaking
       else Rejected (Exn "AxiosError" "Request failed with status code 404");
     api_post_bookings := post;
     api_post_promo := fun _ _ => Resolved remotePromo;
     fetch_static := Resolved demoJson;
     clock := fun n => (1762047781123 + Z.of_nat n)%Z;
     LocalTZA := fun _ _ => 19800000%Z |}.

Definition liveEnv : Env :=
  backendEnv "https://backend.example/api" (fun _ => Resolved remoteBooking).

(** The bookings endpoint is down, the rest of the backend answers. *)
Definition halfEnv : Env :=
  backendEnv "https://backend.example/api" (fun _ => Rejected networkError).

(** A backend that would answer, behind an empty base address. *)
Definition blankEnv : Env :=
  backendEnv EmptyString (fun _ => Resolved remoteBooking).

(** A static deployment whose document has no [experiences]. *)
Definition emptyEnv : Env :=
  {| API_BASE_URL := None;
     api_get_experiences := Rejected networkError;
     api_get_experience := fun _ => Rejected networkError;
     api_post_bookings := fun _ => Rejected networkError;
     api_post_promo := fun _ _ => Rejected networkError;
     fetch_static := Resolved {| StaticJson.experiences := None |};
     clock := fun n => (1762047781123 + Z.of_nat n)%Z;
     LocalTZA := fun _ _ => 0%Z |}.

(** ** Hosts and documents *)

(** The base address is not set, or is the empty string. *)
Definition unset (env : Env) : Prop :=
  API_BASE_URL env = None \/ API_BASE_URL env = Some EmptyString.

(** Two hosts with the same static document, clock and time zone. *)
Definition same_host (env env' : Env) : Prop :=
  fetch_static env = fetch_static env' /\
  (forall n, clock env n = clock env' n) /\
  (forall x isUTC, LocalTZA env x isUTC = LocalTZA env' x isUTC).

(** The static document has no [experiences], or an empty array of them. *)
Definition no_experiences (json : StaticJson.t) : Prop :=
  StaticJson.experiences json = None \/ StaticJson.experiences json = Some [].

(** The slot [x] of a detail of the experience [eid] is the raw slot [r]
    of the static document, its id turned into a string. *)
Definition kept (eid : string) (r : RawSlot.t) (x : Slot.t) : Prop :=
  Slot.id x = String_of_id (RawSlot.id r) /\
  Slot.experienceId x = eid /\
  Slot.date x = RawSlot.date r /\
  Slot.time x = RawSlot.time r /\
  Slot.availableSpots x = RawSlot.availableSpots r /\
  Slot.totalSpots x = RawSlot.totalSpots r.

(** The detail [d] shows what the listing [x] shows. *)
Definition same_card (x : Experience.t) (d : ExperienceDetail.t) : Prop :=
  ExperienceDetail.id d = Experience.id x /\
  ExperienceDetail.name d = Experience.name x /\
  ExperienceDetail.location d = Experience.location x /\
  ExperienceDetail.description d = Experience.description x /\
  ExperienceDetail.image d = Experience.image x /\
  ExperienceDetail.price d = Experience.price x.

(** ** Reading a calendar date back *)

(** The number that a string of decimal digits writes, after [acc]. *)
Fixpoint digits_value (acc : Z) (s : string) : Z :=
  match s with
  | EmptyString => acc
  | String c r => digits_value (10 * acc + Z.of_nat (nat_of_ascii c) - 48) r
  end.

(** The id of a synthesized slot, from its date and its time. *)
Definition slotKey (eid : string) (p : string * string) : string :=
  slotIdOf eid (fst p) (snd p).

(** ** Hosts whose schedule does not start tomorrow *)

(** Pacific time around the end of daylight saving time on 2 November
    2025: seven hours behind UTC until 09:00 UTC of that day, eight hours
    afterwards; the local times before 02:00 of that day are read with the
    offset of before the change. *)
Definition pacificTZA (x : Z) (isUTC : bool) : Z :=
  if isUTC
  then (if (x <? 1762074000000)%Z then -25200000 else -28800000)%Z
  else (if (x <? 1762048800000)%Z then -25200000 else -28800000)%Z.

(** A static deployment on a host on Pacific time whose clock stands at
    2025-11-01T23:30:00.000Z: there it is 16:30 on the 1st of November. *)
Definition pacificEnv : Env :=
  {| API_BASE_URL := None;
     api_get_experiences := Rejected networkError;
     api_get_experience := fun _ => Rejected networkError;
     api_post_bookings := fun _ => Rejected networkError;
     api_post_promo := fun _ _ => Rejected networkError;
     fetch_static := Resolved demoJson;
     clock := fun _ => 1762039800000%Z;
     LocalTZA := pacificTZA |}.

(** A static deployment on a host on UTC whose clock passes midnight
    during the call: the first reading is 2025-11-02T23:59:59.999Z, the
    next ones are on the 3rd of November. *)
Definition midnightEnv : Env :=
  {| API_BASE_URL := None;
     api_get_experiences := Rejected networkError;
     api_get_experience := fun _ => Rejected networkError;
     api_post_bookings := fun _ => Rejected networkError;
     api_post_promo := fun _ _ => Rejected networkError;
     fetch_static := Resolved demoJson;
     clock := fun n => match n with
                       | O => 1762127999999%Z
                       | S _ => (1762128000000 + Z.of_nat n)%Z
                       end;
     LocalTZA := fun _ _ => 0%Z |}.

(** A second entry with the id of [sunrise], written as a number, and
    without slots. *)
Definition sunriseCopy : RawExperience.t :=
  {| RawExperience.id := IdNumber 2;
     RawExperience.name := "Nandi Hills Sunrise (weekend)";
     RawExperience.location := "Bangalore";
     RawExperience.description := "Sunrise trek.";
     RawExperience.image := "/images/nandi.jpg";
     RawExperience.price := 999;
     RawExperience.slots := None |}.

Definition dupJson : StaticJson.t :=
  {| StaticJson.experiences := Some [sunrise; sunriseCopy] |}.

Definition dupEnv : Env :=
  {| API_BASE_URL := None;
     api_get_experiences := Rejected networkError;
     api_get_experience := fun _ => Rejected networkError;
     api_post_bookings := fun _ => Rejected networkError;
     api_post_promo := fun _ _ => Rejected networkError;
     fetch_static := Resolved dupJson;
     clock := fun n => (1762047781123 + Z.of_nat n)%Z;
     LocalTZA := fun _ _ => 0%Z |}.

(** The dates of a schedule of four slots a day on the five days after
    the day [today]. *)
Definition fiveDaysFromTomorrow (today : Z) : list string :=
  concat (map (fun k => repeat (Date.isoDateOfDay (today + k)) 4) [1; 2; 3; 4; 5]%Z).

(** ** Amounts that binary64 holds exactly *)

(** The bound on [price * qty] up to which the operations of the source
    on an integer price and an integer quantity ([price * qty],
    [base * 0.05] rounded, [base + taxes]) give in binary64 what they give
    on exact numbers. *)
Definition exactAmountBound : number := 1000000000000000.

(** The amounts of [createBooking] (lines 180 to 184 of the source) as
    binary64 computes them: [base = unit * qty],
    [taxes = Math.round(base * 0.05)] and [total = base + taxes], the
    literal [0.05] being the binary64 number nearest to it. *)
Definition base_binary64 (unit qty : number) : number := Binary64.mul unit qty.

Definition taxes_binary64 (unit qty : number) : Z :=
  Math_round (Binary64.mul (base_binary64 unit qty) (Binary64.fl 0.05)).

Definition total_binary64 (unit qty : number) : number :=
  Binary64.add (base_binary64 unit qty) (inject_Z (taxes_binary64 unit qty)).

(** * Lemmas and theorems *)

(** ** The calendar *)

Module DateFacts.

Import Date.
Local Open Scope Z_scope.

(** [YearFromDay] meets the definition of ECMAScript: the year of a day
    is the largest year that starts on or before it. *)
Lemma YearFromDay_spec (d : Z) :
  DayFromYear (YearFromDay d) <= d < DayFromYear (YearFromDay d + 1).
Proof.
  unfold YearFromDay, DayFromYear.
  repeat match goal with
         | |- context [ ?a <=? ?b ] => destruct (Z.leb_spec a b)
         end; Z.to_euclidean_division_equations; lia.
Qed.

Lemma YearFromDay_mono (d d' : Z) : d <= d' -> YearFromDay d <= YearFromDay d'.
Proof.
  intros H.
  pose proof (YearFromDay_spec d) as [Hd _].
  pose proof (YearFromDay_spec d') as [_ Hd'].
  assert (Hmono : forall y y', y' + 1 <= y -> DayFromYear (y' + 1) <= DayFromYear y).
  { intros y y' Hy. unfold DayFromYear. Z.to_euclidean_division_equations; lia. }
  destruct (Z_le_gt_dec (YearFromDay d) (YearFromDay d')) as [Hle | Hgt]; [exact Hle |].
  specialize (Hmono (YearFromDay d) (YearFromDay d') ltac:(lia)). lia.
Qed.

Lemma MonthFromTime_range (t : Z) : 0 <= MonthFromTime t <= 11.
Proof.
  unfold MonthFromTime.
  repeat match goal with
         | |- context [ ?a <? ?b ] => destruct (Z.ltb_spec a b)
         end; lia.
Qed.

Lemma MakeDay_DateFromTime (t k : Z) :
  MakeDay (YearFromTime t) (MonthFromTime t) (DateFromTime t + k) = Day t + k.
Proof.
  pose proof (MonthFromTime_range t) as Hm.
  unfold MakeDay, DateFromTime, DayWithinYear.
  rewrite (Z.div_small (MonthFromTime t) 12), (Z.mod_small (MonthFromTime t) 12) by lia.
  rewrite Z.add_0_r. lia.
Qed.

(** [d.setDate(d.getDate() + k)] moves the local time of [d] by [k]
    whole days and takes the instant of that local time. *)
Lemma setDate_getDate (tza : Z -> bool -> Z) (t k : Z) :
  setDate tza t (getDate tza t + k) = UTC tza (LocalTime tza t + k * msPerDay).
Proof.
  unfold setDate, getDate, MakeDate.
  rewrite MakeDay_DateFromTime. f_equal.
  unfold Day, TimeWithinDay, msPerDay.
  Z.to_euclidean_division_equations; lia.
Qed.

Lemma Day_add_days (t k : Z) : Day (t + k * msPerDay) = Day t + k.
Proof. unfold Day, msPerDay. rewrite Z.div_add by lia. reflexivity. Qed.

Lemma DayFromYear_succ (y : Z) : DayFromYear (y + 1) = DayFromYear y + DaysInYear y.
Proof.
  unfold DayFromYear, DaysInYear.
  repeat match goal with
         | |- context [ ?a =? ?b ] => destruct (Z.eqb_spec a b); cbn [negb]
         end; Z.to_euclidean_division_equations; lia.
Qed.

Lemma DaysInYear_cases (y : Z) : DaysInYear y = 365 \/ DaysInYear y = 366.
Proof.
  unfold DaysInYear.
  repeat match goal with
         | |- context [ ?a =? ?b ] => destruct (Z.eqb_spec a b); cbn [negb]
         end; auto.
Qed.

Lemma DayWithinYear_range (t : Z) :
  0 <= DayWithinYear t < DaysInYear (YearFromTime t).
Proof.
  unfold DayWithinYear, YearFromTime.
  pose proof (YearFromDay_spec (Day t)) as H.
  rewrite DayFromYear_succ in H. lia.
Qed.

Lemma DateFromTime_range (t : Z) : 1 <= DateFromTime t <= 31.
Proof.
  pose proof (DayWithinYear_range t) as Hd.
  pose proof (DaysInYear_cases (YearFromTime t)) as Hy.
  unfold DateFromTime, MonthFromTime, monthStart, InLeapYear.
  repeat match goal with
         | |- context [ ?a <? ?b ] => destruct (Z.ltb_spec a b); cbn [Z.eqb Pos.eqb]
         end; lia.
Qed.

Lemma Day_of_midnight (d : Z) : Day (d * msPerDay) = d.
Proof. unfold Day, msPerDay. apply Z.div_mul. lia. Qed.

(** The decimal strings of the numbers below a power of ten, padded. *)
Lemma pad_length (w : nat) (bound n : Z) :
  forallb (fun k => Nat.eqb (String.length (pad w (Z.of_nat k))) w)
          (seq 0 (Z.to_nat bound)) = true ->
  0 <= n < bound ->
  String.length (pad w n) = w.
Proof.
  intros Hall Hn.
  rewrite forallb_forall in Hall.
  specialize (Hall (Z.to_nat n)).
  rewrite Z2Nat.id in Hall by lia.
  apply Nat.eqb_eq, Hall, in_seq. lia.
Qed.

Lemma pad2_length (n : Z) : 0 <= n < 100 -> String.length (pad 2 n) = 2%nat.
Proof. intros H. apply (pad_length 2 100); [by vm_compute | lia]. Qed.

Lemma pad4_length (n : Z) : 0 <= n < 10000 -> String.length (pad 4 n) = 4%nat.
Proof. intros H. apply (pad_length 4 10000); [by vm_compute | lia]. Qed.

Lemma length_append (a b : string) :
  String.length (a ++ b) = (String.length a + String.length b)%nat.
Proof. induction a as [| c a IH]; simpl; [reflexivity | by rewrite IH]. Qed.

Lemma substring_prefix (a b : string) : substring 0 (String.length a) (a ++ b) = a.
Proof.
  induction a as [| c a IH]; simpl.
  - destruct b; reflexivity.
  - by rewrite IH.
Qed.

(** With a year of four digits, the calendar date of a day takes ten
    characters. *)
Lemma isoDateOfDay_length (d : Z) :
  0 <= YearFromDay d <= 9999 -> String.length (isoDateOfDay d) = 10%nat.
Proof.
  intros Hy. unfold isoDateOfDay.
  pose proof (MonthFromTime_range (d * msPerDay)) as Hm.
  pose proof (DateFromTime_range (d * msPerDay)) as Hd.
  assert (Hyt : YearFromTime (d * msPerDay) = YearFromDay d).
  { unfold YearFromTime. by rewrite Day_of_midnight. }
  cbv zeta. rewrite Hyt.
  destruct (Z.leb_spec 0 (YearFromDay d)); [| lia].
  destruct (Z.leb_spec (YearFromDay d) 9999); [| lia].
  cbn [andb].
  rewrite !length_append, pad4_length, !pad2_length by lia.
  reflexivity.
Qed.

(** [d.toISOString().slice(0, 10)] is the calendar date of the UTC day
    of [d], for the years that print with four digits. *)
Lemma slice0_toISOString (t : Z) :
  0 <= YearFromTime t <= 9999 ->
  slice0 10 (toISOString t) = isoDateOfDay (Day t).
Proof.
  intros Hy. unfold slice0, toISOString.
  rewrite <- (isoDateOfDay_length (Day t)) at 1 by exact Hy.
  apply substring_prefix.
Qed.

End DateFacts.

(** ** The fallback path *)

Lemma remote_first_fallback {A : Type} (env : Env) (call : outcome A) (m : Async A) (t : nat) :
  fallback env call ->
  (if configured env then catch (await call) (fun _ => m) else m) t = m t.
Proof.
  intros [Hc | [e He]].
  - rewrite Hc. reflexivity.
  - destruct (configured env); [| reflexivity].
    unfold catch, await. rewrite He. reflexivity.
Qed.

(** A remote call that answers is returned as it is. *)
Lemma remote_first_answer {A : Type} (env : Env) (a : A) (m : Async A) (t : nat) :
  configured env = true ->
  (if configured env then catch (await (Resolved a)) (fun _ => m) else m) t = (Resolved a, t).
Proof. intros Hc. rewrite Hc. reflexivity. Qed.

Lemma getExperiences_fallback env t :
  fallback env (api_get_experiences env) ->
  getExperiences env t = getExperiences_static env t.
Proof. apply remote_first_fallback. Qed.

Lemma getExperienceById_fallback env id t :
  fallback env (api_get_experience env id) ->
  getExperienceById env id t = getExperienceById_static env id t.
Proof. apply remote_first_fallback. Qed.

Lemma createBooking_fallback env booking t :
  fallback env (api_post_bookings env booking) ->
  createBooking env booking t = createBooking_static env booking t.
Proof. apply remote_first_fallback. Qed.

Lemma validatePromoCode_fallback env code subtotal t :
  fallback env (api_post_promo env code subtotal) ->
  validatePromoCode env code subtotal t = validatePromoCode_static code subtotal t.
Proof. apply remote_first_fallback. Qed.

(** ** Finding an entry of the static document *)

Lemma id_test_spec id e : id_test id e = true <-> has_id id e.
Proof. apply String.eqb_eq. Qed.

Lemma find_first_with_id id l found :
  first_with_id id l found -> find (id_test id) l = Some found.
Proof.
  intros (pre & post & -> & Hpre & Hid).
  induction Hpre as [| e pre He _ IH]; simpl.
  - apply id_test_spec in Hid. rewrite Hid. reflexivity.
  - destruct (id_test id e) eqn:E; [| exact IH].
    apply id_test_spec in E. contradiction.
Qed.

Lemma find_absent id l :
  Forall (fun e => ~ has_id id e) l -> find (id_test id) l = None.
Proof.
  induction 1 as [| e l He _ IH]; simpl; [reflexivity |].
  destruct (id_test id e) eqn:E; [| exact IH].
  apply id_test_spec in E. contradiction.
Qed.

Lemma find_present id l :
  Exists (has_id id) l -> exists found, first_with_id id l found.
Proof.
  induction l as [| e l IH]; intros H; [inversion H |].
  destruct (id_test id e) eqn:E.
  - exists e, [], l. repeat split; [constructor | by apply id_test_spec].
  - assert (Hne : ~ has_id id e).
    { intros Hid. apply id_test_spec in Hid. congruence. }
    inversion H as [? ? Hid | ? ? Hl]; subst; [contradiction |].
    destruct (IH Hl) as (found & pre & post & -> & Hpre & Hid).
    exists found, (e :: pre), post. repeat split; [constructor |]; assumption.
Qed.

Lemma find_some_first_with_id id l found :
  find (id_test id) l = Some found -> first_with_id id l found.
Proof.
  induction l as [| e l IH]; simpl; [discriminate |].
  destruct (id_test id e) eqn:E.
  - intros [= ->]. exists [], l. repeat split; [constructor | by apply id_test_spec].
  - intros H. destruct (IH H) as (pre & post & -> & Hpre & Hid).
    exists (e :: pre), post. repeat split; [| assumption].
    constructor; [| assumption].
    intros Hid'. apply id_test_spec in Hid'. congruence.
Qed.

(** ** Promo codes *)

Lemma promos_dom : dom promos = ({[ "SAVE10"; "FLAT100"; "WELCOME20" ]} : gset string).
Proof. unfold promos. rewrite !dom_insert_L, dom_empty_L. set_solver. Qed.

Lemma promos_lookup (k : string) (p : Promo.t) :
  promos !! k = Some p <->
  (k = "SAVE10" /\ p = percentPromo 10) \/
  (k = "FLAT100" /\ p = flatPromo 100) \/
  (k = "WELCOME20" /\ p = percentPromo 20).
Proof.
  unfold promos, percentPromo, flatPromo. split.
  - intros H.
    destruct (decide (k = "SAVE10")) as [-> | n1]; [left; by simplify_map_eq |].
    destruct (decide (k = "FLAT100")) as [-> | n2]; [right; left; by simplify_map_eq |].
    destruct (decide (k = "WELCOME20")) as [-> | n3]; [right; right; by simplify_map_eq |].
    by simplify_map_eq.
  - intros [[-> ->] | [[-> ->] | [-> ->]]]; by simplify_map_eq.
Qed.

(** C1. With no backend configured or the remote call failed,
    [validatePromoCode (code, subtotal)] looks the uppercased code up in a
    table of exactly three promotions (SAVE10: 10 percent, FLAT100: 100
    flat, WELCOME20: 20 percent). An unknown code resolves (nothing is
    thrown) to the failure object with message "Invalid promo code"; a known
    code resolves to success, with discount [round (subtotal * value / 100)]
    for a percentage and the flat value, whatever the subtotal, for a flat
    promotion. So ("save10", 1000) and ("FLAT100", 50) both give 100. *)
Theorem validatePromoCode_static_promotions
    (env : Env) (code : string) (subtotal : number) (t : nat) :
  fallback env (api_post_promo env code subtotal) ->
  let r := settle (validatePromoCode env code subtotal) t in
  let k := toUpperCase code in
  (size promos = 3%nat /\
   promos !! "SAVE10" = Some (percentPromo 10) /\
   promos !! "FLAT100" = Some (flatPromo 100) /\
   promos !! "WELCOME20" = Some (percentPromo 20)) /\
  (promos !! k = None -> r = Resolved promoFailure) /\
  (k <> "SAVE10" -> k <> "FLAT100" -> k <> "WELCOME20" -> r = Resolved promoFailure) /\
  (forall p, promos !! k = Some p -> Promo.type p = percentage ->
     r = Resolved (promoSuccess k p
           (inject_Z (Math_round (subtotal * Promo.value p / 100)%Q)))) /\
  (forall p, promos !! k = Some p -> Promo.type p = flat ->
     r = Resolved (promoSuccess k p (Promo.value p))) /\
  (code = "save10" -> subtotal = 1000%Q ->
     r = Resolved (promoSuccess "SAVE10" (percentPromo 10) 100%Q)) /\
  (code = "FLAT100" -> subtotal = 50%Q ->
     r = Resolved (promoSuccess "FLAT100" (flatPromo 100) 100%Q)).
Proof.
  intros Hfb r k.
  assert (Hr : r = settle (validatePromoCode_static code subtotal) t).
  { subst r. unfold settle. by rewrite validatePromoCode_fallback. }
  assert (Hnone : promos !! k = None -> r = Resolved promoFailure).
  { intros Hk. rewrite Hr. unfold settle, validatePromoCode_static. fold k.
    rewrite Hk. reflexivity. }
  assert (Hsome : forall p, promos !! k = Some p ->
            r = Resolved (promoSuccess k p
                  match Promo.type p with
                  | percentage => inject_Z (Math_round (subtotal * Promo.value p / 100)%Q)
                  | flat => Promo.value p
                  end)).
  { intros p Hk. rewrite Hr. unfold settle, validatePromoCode_static. fold k.
    rewrite Hk. reflexivity. }
  split; [| split; [exact Hnone |]; repeat split].
  - unfold promos. split.
    { rewrite !map_size_insert_None, map_size_empty; by simplify_map_eq. }
    repeat split; apply promos_lookup; tauto.
  - intros n1 n2 n3. apply Hnone.
    destruct (promos !! k) as [p |] eqn:E; [| reflexivity].
    apply promos_lookup in E. tauto.
  - intros p Hk Hp. rewrite (Hsome p Hk), Hp. reflexivity.
  - intros p Hk Hp. rewrite (Hsome p Hk), Hp. reflexivity.
  - intros -> ->. subst k. simpl toUpperCase in *.
    rewrite (Hsome (percentPromo 10)) by (apply promos_lookup; tauto). reflexivity.
  - intros -> ->. subst k. simpl toUpperCase in *.
    rewrite (Hsome (flatPromo 100)) by (apply promos_lookup; tauto). reflexivity.
Qed.

(** ** Listing the experiences *)

Lemma getExperiences_static_settles env t :
  getExperiences_static env t =
  (match fetch_static env with
   | Resolved json => Resolved (map toExperience (experiences_or_empty json))
   | Rejected e => Rejected e
   end, t).
Proof.
  unfold getExperiences_static, bind, await, ret.
  destruct (fetch_static env); reflexivity.
Qed.

Lemma toExperience_listed e : listed e (toExperience e).
Proof. repeat split. Qed.

Lemma listed_unique e x y : listed e x -> listed e y -> x = y.
Proof.
  destruct x, y. unfold listed; simpl.
  intros (-> & -> & -> & -> & -> & ->) (-> & -> & -> & -> & -> & ->). reflexivity.
Qed.

Lemma listed_same_listing e e' x : same_listing e e' -> listed e x -> listed e' x.
Proof.
  unfold same_listing, listed.
  intros (<- & <- & <- & <- & <- & <-). tauto.
Qed.

Lemma Forall2_listed_unique l : forall xs ys,
  Forall2 listed l xs -> Forall2 listed l ys -> xs = ys.
Proof.
  induction l as [| e l IH]; intros xs ys Hx Hy; inversion Hx; inversion Hy; subst.
  - reflexivity.
  - f_equal; [eapply listed_unique | apply IH]; eassumption.
Qed.

Lemma Forall2_listed_map l : Forall2 listed l (map toExperience l).
Proof. induction l; constructor; [apply toExperience_listed | assumption]. Qed.

Lemma Forall2_listed_same l l' xs :
  Forall2 same_listing l l' -> Forall2 listed l xs -> Forall2 listed l' xs.
Proof.
  intros H. revert xs.
  induction H as [| e e' l l' He _ IH]; intros xs Hx; inversion Hx; subst; constructor.
  - eapply listed_same_listing; eassumption.
  - apply IH. assumption.
Qed.

(** C7. On the fallback path [getExperiences] turns every raw entry of the
    static document, in order, into an [Experience] with the fields id
    (as a string), name, location, description, image and price; the slots
    of the raw entries are dropped: documents that differ in slots only
    give the same list. *)
Theorem getExperiences_static_maps_entries (env : Env) (json : StaticJson.t) (t : nat) :
  fallback env (api_get_experiences env) ->
  fetch_static env = Resolved json ->
  exists l : list Experience.t,
    settle (getExperiences env) t = Resolved l /\
    Forall2 listed (experiences_or_empty json) l /\
    (forall env' json' t',
        fallback env' (api_get_experiences env') ->
        fetch_static env' = Resolved json' ->
        Forall2 same_listing (experiences_or_empty json) (experiences_or_empty json') ->
        settle (getExperiences env') t' = Resolved l).
Proof.
  intros Hfb Hjson.
  exists (map toExperience (experiences_or_empty json)).
  split; [| split].
  - unfold settle. rewrite getExperiences_fallback, getExperiences_static_settles, Hjson by done.
    reflexivity.
  - apply Forall2_listed_map.
  - intros env' json' t' Hfb' Hjson' Hsame.
    unfold settle. rewrite getExperiences_fallback, getExperiences_static_settles, Hjson' by done.
    simpl. f_equal.
    apply (Forall2_listed_unique (experiences_or_empty json')).
    + apply Forall2_listed_map.
    + eapply Forall2_listed_same; [eassumption | apply Forall2_listed_map].
Qed.

(** C8. Two calls of [getExperiences] on the fallback path that read the
    same static data settle alike, whatever the clock, the time zone and
    the failed remote answers are; neither call reads the clock. *)
Theorem getExperiences_static_idempotent (env1 env2 : Env) (t1 t2 : nat) :
  fallback env1 (api_get_experiences env1) ->
  fallback env2 (api_get_experiences env2) ->
  fetch_static env1 = fetch_static env2 ->
  settle (getExperiences env1) t1 = settle (getExperiences env2) t2 /\
  ticks (getExperiences env1) t1 = t1 /\
  ticks (getExperiences env2) t2 = t2.
Proof.
  intros H1 H2 Hsame. unfold settle, ticks.
  rewrite !getExperiences_fallback, !getExperiences_static_settles, Hsame by done.
  repeat split.
Qed.

(** ** The detail of an experience *)

Lemma fold_left_push {A B : Type} (f : A -> B) (l : list A) : forall out : list B,
  fold_left (fun out t => (out ++ [f t])%list) l out = (out ++ map f l)%list.
Proof.
  induction l as [| a l IH]; intros out; simpl.
  - by rewrite app_nil_r.
  - by rewrite IH, <- app_assoc.
Qed.

Lemma ensureSlots_loop_nil env found out t :
  ensureSlots_loop env found [] out t = (Resolved out, t).
Proof. reflexivity. Qed.

Lemma ensureSlots_loop_cons env found i rest out t :
  ensureSlots_loop env found (i :: rest) out t =
  ensureSlots_loop env found rest
    (out ++ map (pushed found
                   (isoDate (Date.UTC (LocalTZA env)
                               (Date.LocalTime (LocalTZA env) (clock env t)
                                + (Z.of_nat i + 1) * Date.msPerDay)%Z)))
                times)%list
    (S t).
Proof.
  cbn [ensureSlots_loop]. unfold bind at 1. unfold Date.now at 1.
  rewrite <- Z.add_assoc, DateFacts.setDate_getDate, fold_left_push.
  reflexivity.
Qed.

Lemma ensureSlots_loop_resolves env found todo : forall out t,
  exists raw, ensureSlots_loop env found todo out t = (Resolved raw, (t + length todo)%nat).
Proof.
  induction todo as [| i rest IH]; intros out t.
  - exists out. rewrite ensureSlots_loop_nil. f_equal. simpl. lia.
  - rewrite ensureSlots_loop_cons.
    destruct (IH (out ++ map (pushed found
                   (isoDate (Date.UTC (LocalTZA env)
                               (Date.LocalTime (LocalTZA env) (clock env t)
                                + (Z.of_nat i + 1) * Date.msPerDay)%Z)))
                times)%list (S t)) as [raw ->].
    exists raw. f_equal. simpl. lia.
Qed.

(** [ensureSlots] never throws. *)
Lemma ensureSlots_resolves env found t :
  exists raw t', ensureSlots env found t = (Resolved raw, t').
Proof.
  unfold ensureSlots.
  destruct (RawExperience.slots found) as [[| s l] |].
  - destruct (ensureSlots_loop_resolves env found (seq 0 5) [] t) as [raw H]. eauto.
  - exists (s :: l), t. reflexivity.
  - destruct (ensureSlots_loop_resolves env found (seq 0 5) [] t) as [raw H]. eauto.
Qed.

Lemma ensureSlots_synthesizes env found t :
  no_slots found ->
  ensureSlots env found t =
  (Resolved (concat (map (fun i => map (pushed found (isoDate (slotInstant env t i))) times)
                         [0; 1; 2; 3; 4]%nat)),
   (t + 5)%nat).
Proof.
  intros Hno.
  assert (E : ensureSlots env found t = ensureSlots_loop env found (seq 0 5) [] t).
  { unfold ensureSlots. destruct Hno as [-> | ->]; reflexivity. }
  rewrite E. cbn [seq].
  rewrite !ensureSlots_loop_cons, ensureSlots_loop_nil.
  unfold slotInstant. cbn [concat map app].
  rewrite !Nat.add_succ_r, !Nat.add_0_r, <- !app_assoc, app_nil_r.
  reflexivity.
Qed.

(** What the static path does, case by case. *)
Lemma getExperienceById_static_cases env id t :
  (exists e, fetch_static env = Rejected e /\
             getExperienceById_static env id t = (Rejected e, t)) \/
  (exists json, fetch_static env = Resolved json /\
     ((Forall (fun e => ~ has_id id e) (experiences_or_empty json) /\
       getExperienceById_static env id t =
       (Rejected (Exn "Error" "Experience not found in static data"), t)) \/
      (exists found raw t',
         first_with_id id (experiences_or_empty json) found /\
         ensureSlots env found t = (Resolved raw, t') /\
         getExperienceById_static env id t = (Resolved (detailOf found raw), t')))).
Proof.
  unfold getExperienceById_static, bind, await.
  destruct (fetch_static env) as [json | e]; [right | left; eauto].
  exists json. split; [reflexivity |].
  fold (id_test id).
  destruct (find (id_test id) (experiences_or_empty json)) as [found |] eqn:E.
  - right. destruct (ensureSlots_resolves env found t) as (raw & t' & Hraw).
    exists found, raw, t'. rewrite Hraw.
    split; [by apply find_some_first_with_id | split; reflexivity].
  - left. split; [| reflexivity].
    apply Forall_forall. intros e He Hid.
    apply id_test_spec in Hid. apply list_elem_of_In in He.
    pose proof (find_none _ _ E e He) as Hn. simpl in Hn. congruence.
Qed.

Lemma slotInstant_fixed env tza t i :
  fixed_offset env tza ->
  slotInstant env t i = (clock env (t + i) + (Z.of_nat i + 1) * Date.msPerDay)%Z.
Proof.
  intros Hfix. unfold slotInstant, Date.UTC, Date.LocalTime. rewrite !Hfix. lia.
Qed.

Lemma slotInstant_Day env tza t i :
  fixed_offset env tza ->
  Date.Day (slotInstant env t i) = (Date.Day (clock env (t + i)) + Z.of_nat i + 1)%Z.
Proof.
  intros Hfix. rewrite (slotInstant_fixed env tza) by exact Hfix.
  rewrite DateFacts.Day_add_days. lia.
Qed.


(** C4. On the fallback path, with the static document loaded, an id that
    no entry carries makes [getExperienceById] reject with the error
    "Experience not found in static data"; and this is the only rejection
    there is: the failure of the remote call never reaches the caller. *)
Theorem getExperienceById_unknown_id_rejects
    (env : Env) (json : StaticJson.t) (id : string) (t : nat) :
  fallback env (api_get_experience env id) ->
  fetch_static env = Resolved json ->
  (Forall (fun e => ~ has_id id e) (experiences_or_empty json) ->
   settle (getExperienceById env id) t = Rejected NotFoundError) /\
  (forall x : exn,
      settle (getExperienceById env id) t = Rejected x ->
      x = NotFoundError /\ Forall (fun e => ~ has_id id e) (experiences_or_empty json)).
Proof.
  intros Hfb Hjson. unfold settle.
  rewrite getExperienceById_fallback by exact Hfb.
  destruct (getExperienceById_static_cases env id t)
    as [(e & He & _) | (json' & Hjson' & Hcases)]; [congruence |].
  assert (json' = json) as -> by congruence.
  destruct Hcases as [[Habs ->] | (found & raw & t' & Hfound & _ & ->)]; simpl.
  - split; [reflexivity |]. intros x [= <-]. split; [reflexivity | exact Habs].
  - split; [| discriminate].
    intros Habs. destruct Hfound as (pre & post & Hl & _ & Hid).
    rewrite Hl in Habs. apply Forall_app in Habs as [_ Habs].
    apply Forall_cons in Habs as [Hn _]. contradiction.
Qed.

(** C6. On the fallback path, with the static document loaded, an id that
    some entry carries (ids compared as strings) makes [getExperienceById]
    return the detail of the first such entry, and the id of the detail is
    the requested id. *)
Theorem getExperienceById_known_id_returns_it
    (env : Env) (json : StaticJson.t) (id : string) (t : nat) :
  fallback env (api_get_experience env id) ->
  fetch_static env = Resolved json ->
  Exists (has_id id) (experiences_or_empty json) ->
  exists (found : RawExperience.t) (d : ExperienceDetail.t),
    first_with_id id (experiences_or_empty json) found /\
    settle (getExperienceById env id) t = Resolved d /\
    ExperienceDetail.id d = String_of_id (RawExperience.id found) /\
    ExperienceDetail.id d = id /\
    String.eqb (ExperienceDetail.id d) id = true.
Proof.
  intros Hfb Hjson Hex. unfold settle.
  rewrite getExperienceById_fallback by exact Hfb.
  destruct (getExperienceById_static_cases env id t)
    as [(e & He & _) | (json' & Hjson' & Hcases)]; [congruence |].
  assert (json' = json) as -> by congruence.
  destruct Hcases as [[Habs _] | (found & raw & t' & Hfound & _ & ->)].
  - exfalso. apply Exists_exists in Hex as (e & He & Hid).
    rewrite Forall_forall in Habs. exact (Habs e He Hid).
  - exists found, (detailOf found raw).
    pose proof Hfound as (_ & _ & _ & _ & Hid). unfold has_id in Hid.
    repeat split; try assumption.
    simpl. apply String.eqb_eq. exact Hid.
Qed.

(** C10. Every slot of a detail that [getExperienceById] returns on the
    fallback path has the id of that detail as its [experienceId], the
    slots taken from the static document and the synthesized ones alike;
    that id is the id, as a string, of the entry found. *)
Theorem getExperienceById_slots_carry_detail_id
    (env : Env) (id : string) (t : nat) (d : ExperienceDetail.t) :
  fallback env (api_get_experience env id) ->
  settle (getExperienceById env id) t = Resolved d ->
  Forall (fun s => Slot.experienceId s = ExperienceDetail.id d) (ExperienceDetail.slots d) /\
  exists json found,
    fetch_static env = Resolved json /\
    first_with_id id (experiences_or_empty json) found /\
    ExperienceDetail.id d = String_of_id (RawExperience.id found).
Proof.
  intros Hfb. unfold settle.
  rewrite getExperienceById_fallback by exact Hfb.
  destruct (getExperienceById_static_cases env id t)
    as [(e & He & ->) | (json & Hjson & [[Habs ->] | (found & raw & t' & Hfound & _ & ->)])];
    simpl; try discriminate.
  intros [= <-]. split.
  - simpl. apply Forall_map, Forall_forall. intros s _. reflexivity.
  - exists json, found. repeat split; assumption.
Qed.

(** ** Rounding *)

Lemma Qfloor_unique (z : Z) (q : Q) :
  (inject_Z z <= q)%Q -> (q < inject_Z (z + 1))%Q -> Qfloor q = z.
Proof.
  intros Hlo Hhi.
  pose proof (Qfloor_le q) as Hle.
  pose proof (Qlt_floor q) as Hlt.
  assert (H1 : (inject_Z z < inject_Z (Qfloor q + 1))%Q) by lra.
  assert (H2 : (inject_Z (Qfloor q) < inject_Z (z + 1))%Q) by lra.
  rewrite <- Zlt_Qlt in H1, H2. lia.
Qed.

Lemma Math_round_comp (x y : number) : (x == y)%Q -> Math_round x = Math_round y.
Proof. intros H. unfold Math_round. apply Qfloor_comp. rewrite H. reflexivity. Qed.

(** Rounding commutes with adding an integer. *)
Lemma Math_round_add_integer (n : Z) (x : number) :
  Math_round (inject_Z n + x)%Q = (n + Math_round x)%Z.
Proof.
  unfold Math_round. apply Qfloor_unique.
  - rewrite inject_Z_plus. pose proof (Qfloor_le (x + (1 # 2))). lra.
  - pose proof (Qlt_floor (x + (1 # 2))) as H.
    rewrite !inject_Z_plus in *. lra.
Qed.

(** For an integer base, adding the rounded tax is rounding the product. *)
Lemma round_tax_integer_base (base : number) :
  is_integer base ->
  (base + inject_Z (Math_round (base * 0.05)) == inject_Z (Math_round (base * 1.05)))%Q.
Proof.
  unfold is_integer. intros Hint.
  rewrite (Math_round_comp (base * 1.05) (inject_Z (Qfloor base) + base * 0.05))
    by (rewrite Hint; lra).
  rewrite Math_round_add_integer, inject_Z_plus, Hint. reflexivity.
Qed.

(** ** Binary64 rounding *)

Module Binary64Facts.
Import Binary64.

Lemma pow2_pos (e : Z) : (0 < pow2 e)%Q.
Proof. apply Qpower_0_lt. reflexivity. Qed.

Lemma pow2_add (a b : Z) : (pow2 (a + b) == pow2 a * pow2 b)%Q.
Proof. apply Qpower_plus. discriminate. Qed.

Lemma pow2_Z (n : Z) : (0 <= n)%Z -> (pow2 n == inject_Z (2 ^ n))%Q.
Proof. intros Hn. unfold pow2. rewrite Zpower_Qpower by exact Hn. reflexivity. Qed.

Lemma pow2_lt_inv (a b : Z) : (pow2 a < pow2 b)%Q -> (a < b)%Z.
Proof. intros H. apply (Qpower_lt_compat_l_inv 2); [exact H | reflexivity]. Qed.

Lemma pow2_le (a b : Z) : (a <= b)%Z -> (pow2 a <= pow2 b)%Q.
Proof. intros H. apply Qpower_le_compat_l; [exact H | discriminate]. Qed.

Lemma ilog2_spec (x : Q) :
  (0 < x)%Q -> (pow2 (ilog2 x) <= x)%Q /\ (x < pow2 (ilog2 x + 1))%Q.
Proof.
  intros Hx. destruct x as [p q].
  assert (Hp : (0 < p)%Z) by (unfold Qlt in Hx; simpl in Hx; lia).
  unfold ilog2. cbn [Qnum Qden].
  set (lp := Z.log2 p). set (lq := Z.log2 (Z.pos q)).
  destruct (Z.log2_spec p Hp) as [Hp1 Hp2]. fold lp in Hp1, Hp2.
  destruct (Z.log2_spec (Z.pos q) ltac:(lia)) as [Hq1 Hq2]. fold lq in Hq1, Hq2.
  assert (Hlp : (0 <= lp)%Z) by apply Z.log2_nonneg.
  assert (Hlq : (0 <= lq)%Z) by apply Z.log2_nonneg.
  assert (HP1 : (pow2 lp <= inject_Z p)%Q) by (rewrite pow2_Z by lia; by rewrite <- Zle_Qle).
  assert (HP2 : (inject_Z p < pow2 (lp + 1))%Q).
  { rewrite pow2_Z by lia. rewrite <- Zlt_Qlt. by rewrite <- Z.add_1_r in Hp2. }
  assert (HQ1 : (pow2 lq <= inject_Z (Z.pos q))%Q) by (rewrite pow2_Z by lia; by rewrite <- Zle_Qle).
  assert (HQ2 : (inject_Z (Z.pos q) < pow2 (lq + 1))%Q).
  { rewrite pow2_Z by lia. rewrite <- Zlt_Qlt. by rewrite <- Z.add_1_r in Hq2. }
  assert (HQ0 : (0 < inject_Z (Z.pos q))%Q) by reflexivity.
  assert (Elo : (pow2 (lp - lq - 1) <= p # q)%Q).
  { rewrite (Qmake_Qdiv p q). apply Qle_shift_div_l; [exact HQ0 |].
    apply Qle_trans with (pow2 (lp - lq - 1) * pow2 (lq + 1))%Q.
    - apply Qmult_le_l; [apply pow2_pos | by apply Qlt_le_weak].
    - rewrite <- pow2_add. by replace (lp - lq - 1 + (lq + 1))%Z with lp by lia. }
  assert (Ehi : (p # q < pow2 (lp - lq + 1))%Q).
  { rewrite (Qmake_Qdiv p q). apply Qlt_shift_div_r; [exact HQ0 |].
    apply Qlt_le_trans with (pow2 (lp - lq + 1) * pow2 lq)%Q.
    - rewrite <- pow2_add. by replace (lp - lq + 1 + lq)%Z with (lp + 1)%Z by lia.
    - apply Qmult_le_l; [apply pow2_pos | exact HQ1]. }
  destruct (Qle_bool (pow2 (lp - lq)) (p # q)) eqn:E.
  - apply Qle_bool_iff in E. split; [exact E | exact Ehi].
  - split; [exact Elo |].
    replace (lp - lq - 1 + 1)%Z with (lp - lq)%Z by lia.
    apply Qnot_le_lt. intros H. apply Qle_bool_iff in H. congruence.
Qed.

Lemma exponent_lt (x : Q) (n : Z) :
  (0 < x)%Q -> (x < pow2 n)%Q -> (ilog2 x < n)%Z.
Proof.
  intros H0 Hx. destruct (ilog2_spec x H0) as [Hlo _].
  apply pow2_lt_inv. by apply Qle_lt_trans with x.
Qed.

Lemma exponent_ge (x : Q) (n : Z) : (pow2 n <= x)%Q -> (n <= ilog2 x)%Z.
Proof.
  intros Hx.
  assert (H0 : (0 < x)%Q) by (apply Qlt_le_trans with (pow2 n); [apply pow2_pos | exact Hx]).
  destruct (ilog2_spec x H0) as [_ Hhi].
  assert (n < ilog2 x + 1)%Z; [| lia].
  apply pow2_lt_inv. by apply Qle_lt_trans with x.
Qed.

Lemma roundEven_near (x : Q) (n : Z) :
  (- (1 # 2) < x - inject_Z n)%Q -> (x - inject_Z n < 1 # 2)%Q -> roundEven x = n.
Proof.
  intros Hlo Hhi. unfold roundEven.
  pose proof (Qfloor_le x) as H1. pose proof (Qlt_floor x) as H2.
  rewrite inject_Z_plus in H2. change (inject_Z 1) with 1%Q in H2.
  assert (Ha : (Qfloor x < n + 1)%Z).
  { rewrite Zlt_Qlt, inject_Z_plus. change (inject_Z 1) with 1%Q. lra. }
  assert (Hb : (n < Qfloor x + 2)%Z).
  { rewrite Zlt_Qlt, inject_Z_plus. change (inject_Z 2) with 2%Q. lra. }
  destruct (Z.eq_dec (Qfloor x) n) as [E | E].
  - rewrite E.
    assert (L : (x - inject_Z n ?= 1 # 2)%Q = Lt) by (rewrite <- Qlt_alt; exact Hhi).
    by rewrite L.
  - assert (E' : Qfloor x = (n - 1)%Z) by lia.
    rewrite E'.
    assert (L : (x - inject_Z (n - 1) ?= 1 # 2)%Q = Gt).
    { rewrite <- Qgt_alt. unfold Z.sub. rewrite inject_Z_plus, inject_Z_opp.
      change (inject_Z 1) with 1%Q. lra. }
    rewrite L. lia.
Qed.

Lemma roundEven_bounds (x : Q) :
  (- (1 # 2) <= inject_Z (roundEven x) - x)%Q /\ (inject_Z (roundEven x) - x <= 1 # 2)%Q.
Proof.
  unfold roundEven.
  pose proof (Qfloor_le x) as H1. pose proof (Qlt_floor x) as H2.
  rewrite inject_Z_plus in H2. change (inject_Z 1) with 1%Q in H2.
  destruct (x - inject_Z (Qfloor x) ?= 1 # 2)%Q eqn:E.
  - rewrite <- Qeq_alt in E.
    destruct (Z.even (Qfloor x)); rewrite ?inject_Z_plus; change (inject_Z 1) with 1%Q; lra.
  - rewrite <- Qlt_alt in E. lra.
  - rewrite <- Qgt_alt in E. rewrite inject_Z_plus. change (inject_Z 1) with 1%Q. lra.
Qed.

Lemma ulp_pos (x : Q) : (0 < ulp x)%Q.
Proof. apply pow2_pos. Qed.

(** A number within half a spacing of a multiple of the spacing rounds
    to that multiple. *)
Lemma fl_near (x : Q) (n : Z) :
  (- (ulp x * (1 # 2)) < x - inject_Z n * ulp x)%Q ->
  (x - inject_Z n * ulp x < ulp x * (1 # 2))%Q ->
  (fl x == inject_Z n * ulp x)%Q.
Proof.
  intros Hlo Hhi. unfold fl.
  pose proof (ulp_pos x) as Hu.
  assert (E : (x / ulp x - inject_Z n == (x - inject_Z n * ulp x) / ulp x)%Q)
    by (field; lra).
  rewrite (roundEven_near (x / ulp x) n); [reflexivity | |].
  - rewrite E. apply Qlt_shift_div_l; [exact Hu | lra].
  - rewrite E. apply Qlt_shift_div_r; [exact Hu | lra].
Qed.

(** Rounding moves a number by at most half a spacing. *)
Lemma fl_error (x : Q) :
  (- (ulp x * (1 # 2)) <= fl x - x)%Q /\ (fl x - x <= ulp x * (1 # 2))%Q.
Proof.
  unfold fl. pose proof (ulp_pos x) as Hu.
  destruct (roundEven_bounds (x / ulp x)) as [Hlo Hhi].
  set (r := inject_Z (roundEven (x / ulp x))) in *.
  assert (E : (r * ulp x - x == (r - x / ulp x) * ulp x)%Q) by (field; lra).
  assert (A : (- (1 # 2) * ulp x <= (r - x / ulp x) * ulp x)%Q)
    by (apply Qmult_le_compat_r; [exact Hlo | lra]).
  assert (B : ((r - x / ulp x) * ulp x <= (1 # 2) * ulp x)%Q)
    by (apply Qmult_le_compat_r; [exact Hhi | lra]).
  rewrite E. split; lra.
Qed.

(** In the normal range the spacing is at most [2^-52] times the
    magnitude. *)
Lemma ulp_le (x : Q) : (pow2 emin <= Qabs x)%Q -> (ulp x <= Qabs x * pow2 (-52))%Q.
Proof.
  intros Hx. unfold ulp.
  pose proof (exponent_ge _ _ Hx) as He.
  rewrite Z.max_l by lia.
  assert (H0 : (0 < Qabs x)%Q)
    by (apply Qlt_le_trans with (pow2 emin); [apply pow2_pos | exact Hx]).
  destruct (ilog2_spec _ H0) as [Hlo _].
  unfold Z.sub. rewrite pow2_add.
  apply Qmult_le_compat_r; [exact Hlo | apply Qlt_le_weak, pow2_pos].
Qed.

(** A multiple of [2^e] is a multiple of the spacing around [x] when [x] is
    below [2^(e+53)]. *)
Lemma ulp_divides (x : Q) (m e : Z) :
  (emin - 52 <= e)%Z -> (0 < Qabs x)%Q -> (Qabs x < pow2 (e + 53))%Q ->
  exists n : Z, (inject_Z m * pow2 e == inject_Z n * ulp x)%Q.
Proof.
  intros He H0 Hx.
  pose proof (exponent_lt _ _ H0 Hx) as HE.
  unfold ulp. set (E := (Z.max (ilog2 (Qabs x)) emin - 52)%Z).
  assert (HE' : (E <= e)%Z) by (subst E; lia).
  exists (m * 2 ^ (e - E))%Z.
  rewrite inject_Z_mult, <- pow2_Z by lia.
  rewrite <- Qmult_assoc, <- pow2_add.
  by replace (e - E + E)%Z with e by lia.
Qed.

Lemma Qabs_inject_Z (m : Z) : (Qabs (inject_Z m) == inject_Z (Z.abs m))%Q.
Proof. reflexivity. Qed.

(** A multiple of [2^e] with at most 53 bits is a binary64 number. *)
Lemma fl_exact (x : Q) (m e : Z) :
  (emin - 52 <= e)%Z -> (Z.abs m < 2 ^ 53)%Z -> (x == inject_Z m * pow2 e)%Q ->
  (fl x == x)%Q.
Proof.
  intros He Hm Hx. pose proof (ulp_pos x) as Hu.
  destruct (Z.eq_dec m 0%Z) as [-> | Hm0].
  { change (inject_Z 0) with 0%Q in Hx.
    rewrite (fl_near x 0%Z); change (inject_Z 0) with 0%Q; lra. }
  assert (Hpos : (0 < Qabs x)%Q).
  { rewrite Hx, Qabs_Qmult, (Qabs_pos (pow2 e)) by apply Qlt_le_weak, pow2_pos.
    apply Qmult_lt_0_compat; [| apply pow2_pos].
    rewrite Qabs_inject_Z. change 0%Q with (inject_Z 0). rewrite <- Zlt_Qlt. lia. }
  assert (Hlt : (Qabs x < pow2 (e + 53))%Q).
  { rewrite Hx, Qabs_Qmult, (Qabs_pos (pow2 e)) by apply Qlt_le_weak, pow2_pos.
    rewrite pow2_add, (Qmult_comm (pow2 e)).
    apply Qmult_lt_compat_r; [apply pow2_pos |].
    rewrite pow2_Z, Qabs_inject_Z by lia. by rewrite <- Zlt_Qlt. }
  destruct (ulp_divides x m e He Hpos Hlt) as [n Hn].
  rewrite (fl_near x n); lra.
Qed.

(** In the normal range rounding moves a number by at most [2^-53] times
    its magnitude. *)
Lemma fl_rel_error (x : Q) :
  (pow2 emin <= Qabs x)%Q ->
  (- (Qabs x * (1 # 9007199254740992)) <= fl x - x)%Q /\
  (fl x - x <= Qabs x * (1 # 9007199254740992))%Q.
Proof.
  intros Hx. pose proof (ulp_le x Hx) as Hu.
  assert (E : (pow2 (-52) == 1 # 4503599627370496)%Q) by reflexivity.
  rewrite E in Hu.
  destruct (fl_error x) as [Hlo Hhi]. split; lra.
Qed.

(** A binary64 number scaled by [1 + 2^-54] rounds back to itself. *)
Lemma fl_absorb (x : Q) (m e : Z) :
  (emin - 52 <= e)%Z -> (pow2 emin <= Qabs x)%Q -> (Z.abs m < 2 ^ 53)%Z ->
  (x == inject_Z m * pow2 e * (1 + (1 # 18014398509481984)))%Q ->
  (fl x == inject_Z m * pow2 e)%Q.
Proof.
  intros He Hn Hm Hx.
  pose proof (ulp_pos x) as Hu. pose proof (pow2_pos e) as Hpe.
  assert (Hpos : (0 < Qabs x)%Q)
    by (apply Qlt_le_trans with (pow2 emin); [apply pow2_pos | exact Hn]).
  assert (Habs : (Qabs x == inject_Z (Z.abs m) * pow2 e * (1 + (1 # 18014398509481984)))%Q).
  { rewrite Hx, !Qabs_Qmult, Qabs_inject_Z, (Qabs_pos (pow2 e)) by lra.
    rewrite (Qabs_pos (1 + _)) by (unfold Qle; simpl; lia). reflexivity. }
  assert (Hm' : (inject_Z (Z.abs m) <= 9007199254740991)%Q).
  { change 9007199254740991%Q with (inject_Z 9007199254740991).
    rewrite <- Zle_Qle. change (2 ^ 53)%Z with 9007199254740992%Z in Hm. lia. }
  assert (Hm0 : (0 <= inject_Z (Z.abs m))%Q).
  { change 0%Q with (inject_Z 0). rewrite <- Zle_Qle. lia. }
  assert (Hlt : (Qabs x < pow2 (e + 53))%Q).
  { rewrite Habs, pow2_add.
    assert (E : (pow2 53 == 9007199254740992)%Q) by reflexivity. rewrite E.
    assert (B : (inject_Z (Z.abs m) * (1 + (1 # 18014398509481984)) * pow2 e
                 < 9007199254740992 * pow2 e)%Q)
      by (apply Qmult_lt_compat_r; [exact Hpe | lra]).
    lra. }
  destruct (ulp_divides x m e He Hpos Hlt) as [n Hdiv].
  destruct (ilog2_spec _ Hpos) as [_ Hhi].
  assert (Hu2 : (pow2 (ilog2 (Qabs x) + 1) == ulp x * 9007199254740992)%Q).
  { unfold ulp. rewrite Z.max_l by (apply exponent_ge in Hn; lia).
    assert (E : (9007199254740992 == pow2 53)%Q) by reflexivity.
    rewrite E, <- pow2_add. f_equiv. lia. }
  rewrite Hu2 in Hhi.
  set (r := (inject_Z m * pow2 e)%Q) in *.
  assert (Hr : (Qabs r == inject_Z (Z.abs m) * pow2 e)%Q).
  { subst r. rewrite Qabs_Qmult, Qabs_inject_Z, (Qabs_pos (pow2 e)) by lra. reflexivity. }
  rewrite <- Hr in Habs.
  pose proof (Qabs_nonneg r) as Hr0.
  destruct (proj1 (Qabs_Qle_condition r (Qabs r)) (Qle_refl _)) as [Hr1 Hr2].
  rewrite (fl_near x n); rewrite <- ?Hdiv; [reflexivity | lra | lra].
Qed.

Lemma fl_literal_0_05 : (fl 0.05 == 3602879701896397 # 72057594037927936)%Q.
Proof. vm_compute. reflexivity. Qed.

End Binary64Facts.

(** The tax on an integer base of at most 10^15, computed in binary64, is
    the tax computed on exact numbers. *)
Lemma binary64_tax (x : Q) (b : Z) :
  (Z.abs b <= 10 ^ 15)%Z ->
  (x == inject_Z b * Binary64.fl 0.05)%Q ->
  Math_round (Binary64.fl x) = Math_round (inject_Z b * 0.05).
Proof.
  intros Hb Hx. rewrite Binary64Facts.fl_literal_0_05 in Hx.
  change (10 ^ 15)%Z with 1000000000000000%Z in Hb.
  set (k := Math_round (inject_Z b * 0.05)).
  assert (Hk1 : (inject_Z k <= inject_Z b * 0.05 + (1 # 2))%Q) by apply Qfloor_le.
  assert (Hk2 : (inject_Z b * 0.05 + (1 # 2) < inject_Z k + 1)%Q).
  { pose proof (Qlt_floor (inject_Z b * 0.05 + (1 # 2))) as H.
    rewrite inject_Z_plus in H. exact H. }
  assert (Hz1 : (20 * k - 10 <= b)%Z).
  { rewrite Zle_Qle. unfold Z.sub. rewrite inject_Z_plus, inject_Z_mult, inject_Z_opp.
    change (inject_Z 20) with 20%Q. change (inject_Z 10) with 10%Q. lra. }
  assert (Hz2 : (b < 20 * k + 10)%Z).
  { rewrite Zlt_Qlt, inject_Z_plus, inject_Z_mult.
    change (inject_Z 20) with 20%Q. change (inject_Z 10) with 10%Q. lra. }
  assert (Hq1 : (-1000000000000000 <= inject_Z b)%Q).
  { change (-1000000000000000)%Q with (inject_Z (-1000000000000000)).
    rewrite <- Zle_Qle. lia. }
  assert (Hq2 : (inject_Z b <= 1000000000000000)%Q).
  { change 1000000000000000%Q with (inject_Z 1000000000000000).
    rewrite <- Zle_Qle. lia. }
  unfold Math_round at 1.
  enough (H : (inject_Z k <= Binary64.fl x + (1 # 2))%Q
              /\ (Binary64.fl x + (1 # 2) < inject_Z k + 1)%Q)
    by (apply Qfloor_unique; [tauto | rewrite inject_Z_plus; tauto]).
  destruct (Z.eq_dec b 0%Z) as [Hb0 | Hb0].
  { (* a base of zero *)
    assert (Hx0 : (x == inject_Z 0 * Binary64.pow2 0)%Q) by (rewrite Hx, Hb0; reflexivity).
    rewrite (Binary64Facts.fl_exact x 0 0) by (done || exact Hx0).
    rewrite Hb0 in Hk1, Hk2. change (inject_Z 0) with 0%Q in *. split; lra. }
  assert (Hnormal : (Binary64.pow2 Binary64.emin <= Qabs x)%Q).
  { apply Qle_trans with (1 # 32)%Q; [unfold Qle; vm_compute; discriminate |].
    rewrite Hx, Qabs_Qmult, Binary64Facts.Qabs_inject_Z.
    assert (H1 : (1 <= inject_Z (Z.abs b))%Q)
      by (change 1%Q with (inject_Z 1); rewrite <- Zle_Qle; lia).
    rewrite (Qabs_pos (3602879701896397 # 72057594037927936)) by (unfold Qle; simpl; lia).
    lra. }
  destruct (Z.eq_dec b (20 * k - 10)%Z) as [Htie | Htie].
  - (* half way between two integers: the product rounds to the half *)
    assert (E : (x == inject_Z (2 * k - 1) * Binary64.pow2 (-1)
                      * (1 + (1 # 18014398509481984)))%Q).
    { rewrite Hx, Htie. unfold Z.sub.
      rewrite !inject_Z_plus, !inject_Z_mult, !inject_Z_opp.
      assert (E : (Binary64.pow2 (-1) == 1 # 2)%Q) by reflexivity. rewrite E.
      change (inject_Z 20) with 20%Q. change (inject_Z 10) with 10%Q.
      change (inject_Z 2) with 2%Q. change (inject_Z 1) with 1%Q. ring. }
    rewrite (Binary64Facts.fl_absorb x (2 * k - 1) (-1));
      [| done | exact Hnormal | change (2 ^ 53)%Z with 9007199254740992%Z; lia | exact E].
    assert (E2 : (Binary64.pow2 (-1) == 1 # 2)%Q) by reflexivity. rewrite E2.
    unfold Z.sub. rewrite inject_Z_plus, inject_Z_mult, inject_Z_opp.
    change (inject_Z 2) with 2%Q. change (inject_Z 1) with 1%Q. split; lra.
  - (* otherwise the rounding error is below the distance to the half *)
    assert (Hz3 : (20 * k + -9 <= b)%Z) by lia.
    assert (Hz4 : (b <= 20 * k + 9)%Z) by lia.
    rewrite Zle_Qle, inject_Z_plus, inject_Z_mult in Hz3, Hz4.
    change (inject_Z 20) with 20%Q in *. change (inject_Z 9) with 9%Q in *.
    change (inject_Z (-9)) with (-9)%Q in *.
    destruct (Binary64Facts.fl_rel_error x Hnormal) as [He1 He2].
    assert (Ha : (Qabs x <= 1000000000000000 * (3602879701896397 # 72057594037927936))%Q)
      by (apply Qabs_Qle_condition; split; lra).
    pose proof (Qabs_nonneg x) as Ha0.
    split; lra.
Qed.

(** When the product of the price and the quantity is an integer of at
    most 10^15 in absolute value, the binary64 operations of the source on
    them give the amounts computed on exact numbers. *)
Lemma binary64_amounts (price qty : number) :
  is_integer (price * qty)%Q ->
  (Qabs (price * qty) <= exactAmountBound)%Q ->
  (base_binary64 price qty == price * qty)%Q /\
  taxes_binary64 price qty = Math_round (price * qty * 0.05) /\
  (total_binary64 price qty == price * qty + inject_Z (Math_round (price * qty * 0.05)))%Q.
Proof.
  intros Hint Hbound.
  set (b := Qfloor (price * qty)).
  assert (Hb : (price * qty == inject_Z b)%Q) by (symmetry; exact Hint).
  assert (Hb15 : (Z.abs b <= 10 ^ 15)%Z).
  { rewrite Hb, Binary64Facts.Qabs_inject_Z in Hbound.
    change exactAmountBound with (inject_Z (10 ^ 15)) in Hbound.
    by rewrite <- Zle_Qle in Hbound. }
  assert (Hbase : (base_binary64 price qty == inject_Z b)%Q).
  { unfold base_binary64, Binary64.mul.
    rewrite (Binary64Facts.fl_exact _ b 0); [exact Hb | done | |].
    - change (10 ^ 15)%Z with 1000000000000000%Z in Hb15.
      change (2 ^ 53)%Z with 9007199254740992%Z. lia.
    - rewrite Hb. change (Binary64.pow2 0) with 1%Q. ring. }
  assert (Htaxes : taxes_binary64 price qty = Math_round (inject_Z b * 0.05)).
  { unfold taxes_binary64, Binary64.mul. apply binary64_tax; [exact Hb15 |].
    by rewrite Hbase. }
  assert (Hround : Math_round (price * qty * 0.05) = Math_round (inject_Z b * 0.05))
    by (apply Math_round_comp; by rewrite Hb).
  split; [by rewrite Hbase, Hb |]. split; [by rewrite Htaxes, Hround |].
  unfold total_binary64, Binary64.add. rewrite Htaxes, Hround.
  set (k := Math_round (inject_Z b * 0.05)).
  assert (Hk1 : (inject_Z k <= inject_Z b * 0.05 + (1 # 2))%Q) by apply Qfloor_le.
  assert (Hk2 : (inject_Z b * 0.05 + (1 # 2) < inject_Z k + 1)%Q).
  { pose proof (Qlt_floor (inject_Z b * 0.05 + (1 # 2))) as H.
    rewrite inject_Z_plus in H. exact H. }
  assert (Hz1 : (20 * k - 10 <= b)%Z).
  { rewrite Zle_Qle. unfold Z.sub. rewrite inject_Z_plus, inject_Z_mult, inject_Z_opp.
    change (inject_Z 20) with 20%Q. change (inject_Z 10) with 10%Q. lra. }
  assert (Hz2 : (b < 20 * k + 10)%Z).
  { rewrite Zlt_Qlt, inject_Z_plus, inject_Z_mult.
    change (inject_Z 20) with 20%Q. change (inject_Z 10) with 10%Q. lra. }
  rewrite (Binary64Facts.fl_exact _ (b + k) 0); [by rewrite Hbase, Hb | done | |].
  - change (10 ^ 15)%Z with 1000000000000000%Z in Hb15.
    change (2 ^ 53)%Z with 9007199254740992%Z. lia.
  - rewrite Hbase, inject_Z_plus. change (Binary64.pow2 0) with 1%Q. ring.
Qed.

(** ** Bookings *)

Lemma createBooking_static_run env booking t :
  createBooking_static env booking t =
  (Resolved (simulated
     {| BookingData.bookingRef :=
          "DEMO-" ++ String_of_Z (clock env (lookupTicks env booking t));
        BookingData.experienceName :=
          str_or match priceLookup env booking t with
                 | Some r => ExperienceDetail.name r
                 | None => EmptyString
                 end "Experience";
        BookingData.date := BookingRequest.date booking;
        BookingData.time := BookingRequest.time booking;
        BookingData.quantity := effectiveQuantity booking;
        BookingData.total :=
          (unitPrice env booking t * effectiveQuantity booking
           + inject_Z (Math_round (unitPrice env booking t * effectiveQuantity booking * 0.05)))%Q
     |}),
   S (lookupTicks env booking t)).
Proof.
  unfold createBooking_static, unitPrice, priceLookup, lookupTicks, settle, ticks,
    effectiveQuantity, catch, bind, ret, Date.now, num_or, falsy.
  destruct (getExperienceById env (BookingRequest.experienceId booking) t) as [[r | e] t'];
    reflexivity.
Qed.

Lemma getExperienceById_ticks env id t : (t <= ticks (getExperienceById env id) t)%nat.
Proof.
  unfold ticks, getExperienceById.
  assert (Hs : (t <= snd (getExperienceById_static env id t))%nat).
  { destruct (getExperienceById_static_cases env id t)
      as [(e & _ & ->) | (json & _ & [[_ ->] | (found & raw & t' & _ & Hraw & ->)])];
      simpl; try lia.
    unfold ensureSlots in Hraw.
    destruct (RawExperience.slots found) as [[| s l] |].
    - destruct (ensureSlots_loop_resolves env found (seq 0 5) [] t) as [raw' H].
      rewrite H in Hraw. injection Hraw as _ <-. lia.
    - injection Hraw as _ <-. lia.
    - destruct (ensureSlots_loop_resolves env found (seq 0 5) [] t) as [raw' H].
      rewrite H in Hraw. injection Hraw as _ <-. lia. }
  destruct (configured env); [| exact Hs].
  unfold catch, await. destruct (api_get_experience env id); simpl; [lia | exact Hs].
Qed.

Lemma is_integer_mult (x y : number) :
  is_integer x -> is_integer y -> is_integer (x * y)%Q.
Proof.
  unfold is_integer. intros Hx Hy.
  assert (E : (x * y == inject_Z (Qfloor x * Qfloor y))%Q)
    by (rewrite inject_Z_mult, Hx, Hy; reflexivity).
  rewrite (Qfloor_comp _ _ E), Qfloor_Z, E. reflexivity.
Qed.

(** C3, as the code has it. On the fallback path [createBooking] resolves
    to the simulated booking; [qty] is the requested quantity, 1 standing
    for a quantity of 0, and [price] is the price of the detail that
    [getExperienceById] returned, 1000 when it rejected. When [price] and
    [qty] are integers and [price * qty] is at most 10^15 in absolute
    value, [total = base + taxes] with [base = price * qty] and
    [taxes = round (base * 0.05)], which is [round (price * qty * 1.05)],
    and the binary64 operations of the source give these same amounts; a
    price of 1000 and a quantity of 2 give base 2000, taxes 100 and total
    2100. *)
Theorem createBooking_static_total (env : Env) (booking : BookingRequest.t) (t : nat) :
  fallback env (api_post_bookings env booking) ->
  let price := unitPrice env booking t in
  let qty := effectiveQuantity booking in
  let base := (price * qty)%Q in
  let taxes := Math_round (base * 0.05) in
  is_integer price ->
  is_integer qty ->
  (Qabs base <= exactAmountBound)%Q ->
  exists d : BookingData.t,
    settle (createBooking env booking) t = Resolved (simulated d) /\
    BookingData.total d = (base + inject_Z taxes)%Q /\
    (BookingData.total d == inject_Z (Math_round (price * qty * 1.05)))%Q /\
    ((base_binary64 price qty == base)%Q /\
     taxes_binary64 price qty = taxes /\
     (total_binary64 price qty == BookingData.total d)%Q) /\
    (forall r, settle (getExperienceById env (BookingRequest.experienceId booking)) t
               = Resolved r -> price = ExperienceDetail.price r) /\
    (forall e, settle (getExperienceById env (BookingRequest.experienceId booking)) t
               = Rejected e -> price = 1000%Q) /\
    (~ (BookingRequest.quantity booking == 0)%Q -> qty = BookingRequest.quantity booking) /\
    ((BookingRequest.quantity booking == 0)%Q -> qty = 1%Q) /\
    ((price == 1000)%Q -> (qty == 2)%Q ->
     (base == 2000)%Q /\ taxes = 100%Z /\ (BookingData.total d == 2100)%Q).
Proof.
  intros Hfb price qty base taxes Hprice Hqty Hbound.
  pose proof (is_integer_mult _ _ Hprice Hqty) as Hint. fold base in Hint.
  eexists. split.
  { unfold settle. rewrite createBooking_fallback, createBooking_static_run by exact Hfb.
    reflexivity. }
  cbn [BookingData.total]. fold price qty base taxes.
  split; [reflexivity |].
  split; [by apply round_tax_integer_base |].
  split; [exact (binary64_amounts price qty Hint Hbound) |].
  split; [| split; [| split; [| split]]].
  - intros r Hr. subst price. unfold unitPrice, priceLookup. by rewrite Hr.
  - intros e He. subst price. unfold unitPrice, priceLookup. by rewrite He.
  - intros Hq. subst qty. unfold effectiveQuantity.
    destruct (Qeq_bool (BookingRequest.quantity booking) 0) eqn:E; [| reflexivity].
    apply Qeq_bool_iff in E. contradiction.
  - intros Hq. subst qty. unfold effectiveQuantity.
    apply Qeq_bool_iff in Hq. by rewrite Hq.
  - intros Hp Hq.
    assert (Hb : (base == 2000)%Q) by (subst base; rewrite Hp, Hq; reflexivity).
    assert (Ht : taxes = 100%Z).
    { subst taxes. rewrite (Math_round_comp (base * 0.05) 100) by (rewrite Hb; reflexivity).
      reflexivity. }
    split; [exact Hb |]. split; [exact Ht |].
    rewrite Hb, Ht. reflexivity.
Qed.


Lemma find_respot f id l :
  find (id_test id) (map (respot f) l) = option_map (respot f) (find (id_test id) l).
Proof.
  induction l as [| e l IH]; [reflexivity |].
  cbn [map find]. unfold id_test at 1 3. cbn [respot RawExperience.id].
  destruct (String.eqb (String_of_id (RawExperience.id e)) id); [reflexivity | exact IH].
Qed.

Lemma ensureSlots_ticks env found t :
  ticks (ensureSlots env found) t
  = match RawExperience.slots found with
    | Some (_ :: _) => t
    | _ => (t + 5)%nat
    end.
Proof.
  unfold ticks, ensureSlots.
  destruct (RawExperience.slots found) as [[| s l] |]; try reflexivity;
    destruct (ensureSlots_loop_resolves env found (seq 0 5) [] t) as [raw ->]; reflexivity.
Qed.

Lemma same_price_and_name_refl o : same_price_and_name o o.
Proof. destruct o; simpl; auto. Qed.

Lemma getExperienceById_static_respot f env id t :
  same_price_and_name (settle (getExperienceById_static env id) t)
                      (settle (getExperienceById_static (respotEnv f env) id) t) /\
  ticks (getExperienceById_static (respotEnv f env) id) t
  = ticks (getExperienceById_static env id) t.
Proof.
  unfold settle, ticks, getExperienceById_static, bind, await.
  cbn [fetch_static respotEnv].
  destruct (fetch_static env) as [json | e]; [| simpl; auto].
  fold (id_test id).
  assert (Hl : experiences_or_empty
                 {| StaticJson.experiences :=
                      option_map (map (respot f)) (StaticJson.experiences json) |}
               = map (respot f) (experiences_or_empty json)).
  { unfold experiences_or_empty. cbn. by destruct (StaticJson.experiences json). }
  rewrite Hl, find_respot.
  destruct (find (id_test id) (experiences_or_empty json)) as [found |]; [| simpl; auto].
  cbn [option_map].
  pose proof (ensureSlots_ticks env found t) as T1.
  pose proof (ensureSlots_ticks (respotEnv f env) (respot f found) t) as T2.
  unfold ticks in T1, T2.
  destruct (ensureSlots_resolves env found t) as (raw & t1 & E1).
  destruct (ensureSlots_resolves (respotEnv f env) (respot f found) t) as (raw' & t2 & E2).
  rewrite E1 in T1 |- *. rewrite E2 in T2 |- *. cbn [fst snd] in *.
  split; [split; reflexivity |].
  rewrite T1, T2. cbn [respot RawExperience.slots].
  destruct (RawExperience.slots found) as [[| s l] |]; reflexivity.
Qed.

Lemma getExperienceById_respot f env id t :
  same_price_and_name (settle (getExperienceById env id) t)
                      (settle (getExperienceById (respotEnv f env) id) t) /\
  ticks (getExperienceById (respotEnv f env) id) t = ticks (getExperienceById env id) t.
Proof.
  pose proof (getExperienceById_static_respot f env id t) as Hs.
  unfold getExperienceById.
  change (configured (respotEnv f env)) with (configured env).
  change (api_get_experience (respotEnv f env) id) with (api_get_experience env id).
  destruct (configured env); [| exact Hs].
  unfold settle, ticks, catch, await in *.
  destruct (api_get_experience env id) as [d | e]; [| exact Hs].
  simpl. auto.
Qed.

(** C5. On the fallback path [createBooking] never fails: whatever the
    request, the configuration, the static document (missing or not) and
    the clock are, it resolves to success with the message
    "Simulated booking (static demo)." and the reference "DEMO-" followed
    by the clock reading taken once the price lookup has settled. No
    availability is looked at: the outcome is the same for any other slot
    id in the request and for any other numbers of available spots in the
    static document, which the call can only read. *)
Theorem createBooking_static_always_succeeds
    (env : Env) (booking : BookingRequest.t) (t : nat) :
  fallback env (api_post_bookings env booking) ->
  exists d : BookingData.t,
    settle (createBooking env booking) t =
      Resolved {| BookingResponse.success := true;
                  BookingResponse.message := "Simulated booking (static demo).";
                  BookingResponse.data := Some d |} /\
    BookingData.bookingRef d
      = "DEMO-" ++ String_of_Z (clock env (lookupTicks env booking t)) /\
    (t <= lookupTicks env booking t)%nat /\
    ticks (createBooking env booking) t = S (lookupTicks env booking t) /\
    (forall slot,
        fallback env (api_post_bookings env (withSlotId slot booking)) ->
        createBooking env (withSlotId slot booking) t = createBooking env booking t) /\
    (forall f : RawSlot.t -> number,
        createBooking (respotEnv f env) booking t = createBooking env booking t).
Proof.
  intros Hfb.
  eexists. split.
  { unfold settle. rewrite createBooking_fallback, createBooking_static_run by exact Hfb.
    reflexivity. }
  cbn [BookingData.bookingRef].
  split; [reflexivity |]. split; [apply getExperienceById_ticks |]. split; [| split].
  - unfold ticks. by rewrite createBooking_fallback, createBooking_static_run.
  - intros slot Hfb'.
    rewrite !createBooking_fallback, !createBooking_static_run by assumption.
    reflexivity.
  - intros f.
    assert (Hfb' : fallback (respotEnv f env) (api_post_bookings (respotEnv f env) booking))
      by exact Hfb.
    rewrite !createBooking_fallback, !createBooking_static_run by assumption.
    destruct (getExperienceById_respot f env (BookingRequest.experienceId booking) t)
      as [Hsame Hticks].
    unfold lookupTicks, unitPrice, priceLookup. rewrite Hticks.
    change (clock (respotEnv f env)) with (clock env).
    destruct (settle (getExperienceById env (BookingRequest.experienceId booking)) t),
             (settle (getExperienceById (respotEnv f env) (BookingRequest.experienceId booking)) t);
      simpl in Hsame; try contradiction.
    + destruct Hsame as [-> ->]. reflexivity.
    + reflexivity.
Qed.

(** ** The properties at the sample inputs *)

Lemma demoEnv_fallback {A : Type} (call : outcome A) : fallback demoEnv call.
Proof. left. reflexivity. Defined.

Lemma downEnv_fallback {A : Type} (call : outcome A) :
  call = Rejected networkError -> fallback downEnv call.
Proof. intros H. right. exists networkError. exact H. Defined.

Lemma kayaking_first : first_with_id "1" (experiences_or_empty demoJson) kayaking.
Proof.
  exists [], [sunrise; coffeeTrail].
  split; [reflexivity |]. split; [apply Forall_nil_2 | reflexivity].
Defined.

(** C1 at ("save10", 1000), the backend configured and down. *)
Lemma validatePromoCode_static_promotions_witness :
  fallback downEnv (api_post_promo downEnv "save10" 1000) /\
  settle (validatePromoCode downEnv "save10" 1000) 0
  = Resolved (promoSuccess "SAVE10" (percentPromo 10) 100).
Proof.
  split; [apply downEnv_fallback; reflexivity |].
  destruct (validatePromoCode_static_promotions downEnv "save10" 1000 0
              (downEnv_fallback _ eq_refl)) as (_ & _ & _ & _ & _ & H & _).
  exact (H eq_refl eq_refl).
Defined.


(** C3 at a price of 1000 and a quantity of 2. *)
Lemma createBooking_static_total_witness :
  fallback demoEnv (api_post_bookings demoEnv (bookingFor "1" 2)) /\
  is_integer (unitPrice demoEnv (bookingFor "1" 2) 0) /\
  is_integer (effectiveQuantity (bookingFor "1" 2)) /\
  (Qabs (unitPrice demoEnv (bookingFor "1" 2) 0 * effectiveQuantity (bookingFor "1" 2))
   <= exactAmountBound)%Q /\
  exists d : BookingData.t,
    settle (createBooking demoEnv (bookingFor "1" 2)) 0 = Resolved (simulated d) /\
    (BookingData.total d == 2100)%Q.
Proof.
  assert (Hp : is_integer (unitPrice demoEnv (bookingFor "1" 2) 0))
    by (vm_compute; reflexivity).
  assert (Hq : is_integer (effectiveQuantity (bookingFor "1" 2)))
    by (vm_compute; reflexivity).
  assert (Hb : (Qabs (unitPrice demoEnv (bookingFor "1" 2) 0
                      * effectiveQuantity (bookingFor "1" 2)) <= exactAmountBound)%Q)
    by (vm_compute; discriminate).
  split; [apply demoEnv_fallback |]. split; [exact Hp |]. split; [exact Hq |].
  split; [exact Hb |].
  destruct (createBooking_static_total demoEnv (bookingFor "1" 2) 0 (demoEnv_fallback _)
              Hp Hq Hb) as (d & Hd & _ & _ & _ & _ & _ & _ & _ & H).
  exists d. split; [exact Hd |].
  apply H; reflexivity.
Defined.

(** C4 at an id that the sample document does not have. *)
Lemma getExperienceById_unknown_id_rejects_witness :
  fallback downEnv (api_get_experience downEnv "42") /\
  fetch_static downEnv = Resolved demoJson /\
  settle (getExperienceById downEnv "42") 0 = Rejected NotFoundError.
Proof.
  split; [apply downEnv_fallback; reflexivity |]. split; [reflexivity |].
  apply (getExperienceById_unknown_id_rejects downEnv demoJson "42" 0
           (downEnv_fallback _ eq_refl) eq_refl).
  repeat (apply Forall_cons_2; [unfold has_id; simpl; discriminate |]).
  apply Forall_nil_2.
Defined.

(** C5 at a request for a slot that is sold out. *)
Lemma createBooking_static_always_succeeds_witness :
  fallback downEnv (api_post_bookings downEnv (bookingFor "2" 3)) /\
  exists d : BookingData.t,
    settle (createBooking downEnv (bookingFor "2" 3)) 0 =
      Resolved {| BookingResponse.success := true;
                  BookingResponse.message := "Simulated booking (static demo).";
                  BookingResponse.data := Some d |}.
Proof.
  split; [apply downEnv_fallback; reflexivity |].
  destruct (createBooking_static_always_succeeds downEnv (bookingFor "2" 3) 0
              (downEnv_fallback _ eq_refl)) as (d & Hd & _).
  exists d. exact Hd.
Defined.

(** C6 at the id "3", stored as the number 3. *)
Lemma getExperienceById_known_id_returns_it_witness :
  fallback demoEnv (api_get_experience demoEnv "3") /\
  fetch_static demoEnv = Resolved demoJson /\
  Exists (has_id "3") (experiences_or_empty demoJson) /\
  exists d : ExperienceDetail.t,
    settle (getExperienceById demoEnv "3") 0 = Resolved d /\ ExperienceDetail.id d = "3".
Proof.
  assert (Hex : Exists (has_id "3") (experiences_or_empty demoJson)).
  { apply Exists_cons_tl, Exists_cons_tl, Exists_cons_hd. reflexivity. }
  split; [apply demoEnv_fallback |]. split; [reflexivity |]. split; [exact Hex |].
  destruct (getExperienceById_known_id_returns_it demoEnv demoJson "3" 0
              (demoEnv_fallback _) eq_refl Hex) as (found & d & _ & Hd & _ & Hid & _).
  exists d. split; [exact Hd | exact Hid].
Defined.

(** C7 at the sample document. *)
Lemma getExperiences_static_maps_entries_witness :
  fallback demoEnv (api_get_experiences demoEnv) /\
  fetch_static demoEnv = Resolved demoJson /\
  exists l : list Experience.t,
    settle (getExperiences demoEnv) 0 = Resolved l /\
    Forall2 listed [kayaking; sunrise; coffeeTrail] l.
Proof.
  split; [apply demoEnv_fallback |]. split; [reflexivity |].
  destruct (getExperiences_static_maps_entries demoEnv demoJson 0
              (demoEnv_fallback _) eq_refl) as (l & Hl & Hall & _).
  exists l. split; [exact Hl | exact Hall].
Defined.

(** C8 at two hosts with the same document: one without a backend, the
    other with a backend that is down, in another time zone and at
    another point of its clock. *)
Lemma getExperiences_static_idempotent_witness :
  fallback demoEnv (api_get_experiences demoEnv) /\
  fallback downEnv (api_get_experiences downEnv) /\
  fetch_static demoEnv = fetch_static downEnv /\
  settle (getExperiences demoEnv) 0 = settle (getExperiences downEnv) 7.
Proof.
  split; [apply demoEnv_fallback |].
  split; [apply downEnv_fallback; reflexivity |]. split; [reflexivity |].
  apply (getExperiences_static_idempotent demoEnv downEnv 0 7
           (demoEnv_fallback _) (downEnv_fallback _ eq_refl) eq_refl).
Defined.


(** C10 at the entry "2" of the sample document, which brings its slot. *)
Lemma getExperienceById_slots_carry_detail_id_witness :
  fallback downEnv (api_get_experience downEnv "2") /\
  exists d : ExperienceDetail.t,
    settle (getExperienceById downEnv "2") 0 = Resolved d /\
    Forall (fun s => Slot.experienceId s = ExperienceDetail.id d) (ExperienceDetail.slots d).
Proof.
  split; [apply downEnv_fallback; reflexivity |].
  eexists. split; [vm_compute; reflexivity |].
  apply (getExperienceById_slots_carry_detail_id downEnv "2" 0 _
           (downEnv_fallback _ eq_refl) eq_refl).
Defined.

(** C3 as the claim words it fails. For the entry 3 of the sample document
    (price 1299.5) and a quantity of 1, the total is 1364.5, not
    [round (1299.5 * 1 * 1.05) = 1364]. For the entry 1 (price 1000) and a
    quantity of 0, the total is 1050, not that of a base of
    [1000 * 0]. *)
Lemma createBooking_total_counterexample :
  (let booking := bookingFor "3" 1 in
   let price := unitPrice demoEnv booking 0 in
   let quantity := BookingRequest.quantity booking in
   exists d : BookingData.t,
     settle (createBooking demoEnv booking) 0 = Resolved (simulated d) /\
     (price == 1299.5)%Q /\ (quantity == 1)%Q /\
     (BookingData.total d == 1364.5)%Q /\
     Math_round (price * quantity * 1.05) = 1364%Z /\
     ~ (BookingData.total d == inject_Z (Math_round (price * quantity * 1.05)))%Q) /\
  (let booking := bookingFor "1" 0 in
   let price := unitPrice demoEnv booking 0 in
   let quantity := BookingRequest.quantity booking in
   exists d : BookingData.t,
     settle (createBooking demoEnv booking) 0 = Resolved (simulated d) /\
     (price == 1000)%Q /\ (quantity == 0)%Q /\
     (BookingData.total d == 1050)%Q /\
     ~ (BookingData.total d
        == price * quantity + inject_Z (Math_round (price * quantity * 0.05)))%Q).
Proof.
  split; cbv zeta; eexists; (split; [vm_compute; reflexivity |]);
    repeat split; try (intros H; vm_compute in H; discriminate).
Qed.

(** ** The code run on the sample document *)

Example demo_listing :
  settle (getExperiences demoEnv) 0
  = Resolved (map toExperience [kayaking; sunrise; coffeeTrail]).
Proof. reflexivity. Qed.

Example demo_static_slot :
  settle (getExperienceById downEnv "2") 0
  = Resolved
      {| ExperienceDetail.id := "2";
         ExperienceDetail.name := "Nandi Hills Sunrise";
         ExperienceDetail.location := "Bangalore";
         ExperienceDetail.description := "Sunrise trek.";
         ExperienceDetail.image := "/images/nandi.jpg";
         ExperienceDetail.price := 899;
         ExperienceDetail.slots :=
           [ {| Slot.id := "21"; Slot.experienceId := "2"; Slot.date := "2025-11-05";
                Slot.time := "07:00 am"; Slot.availableSpots := 0;
                Slot.totalSpots := 10 |} ] |}.
Proof. vm_compute. reflexivity. Qed.

Example demo_synthesized_dates :
  slotDates (settle (getExperienceById demoEnv "1") 0)
  = concat (map (fun date => [date; date; date; date])
                ["2025-11-03"; "2025-11-04"; "2025-11-05"; "2025-11-06"; "2025-11-07"]).
Proof. vm_compute. reflexivity. Qed.

Example demo_first_and_last_slot :
  match settle (getExperienceById demoEnv "1") 0 with
  | Resolved d =>
      head (ExperienceDetail.slots d)
        = Some (synthesized "1" "2025-11-03" "07:00 am" 4) /\
      last (ExperienceDetail.slots d)
        = Some (synthesized "1" "2025-11-07" "1:00 pm" 0)
  | Rejected _ => False
  end.
Proof. vm_compute. split; reflexivity. Qed.

(** The dates are those of UTC. On a host east of UTC, in the first hours
    of its day, the first date is therefore the day the host is already
    in: here the host is in the 2nd of November and the schedule runs from
    "2025-11-02". *)
Example east_of_UTC_first_date :
  Date.toISOString (clock eastEnv 0) = "2025-11-01T20:00:00.000Z" /\
  Date.getDate (LocalTZA eastEnv) (clock eastEnv 0) = 2%Z /\
  slotDates (settle (getExperienceById eastEnv "1") 0)
  = concat (map (fun date => [date; date; date; date])
                ["2025-11-02"; "2025-11-03"; "2025-11-04"; "2025-11-05"; "2025-11-06"]).
Proof. vm_compute. repeat split; reflexivity. Qed.

Example demo_booking :
  settle (createBooking demoEnv (bookingFor "1" 2)) 0
  = Resolved (simulated
      {| BookingData.bookingRef := "DEMO-1762047781128";
         BookingData.experienceName := "Kayaking";
         BookingData.date := "2025-11-05";
         BookingData.time := "07:00 am";
         BookingData.quantity := 2;
         BookingData.total := 1000 * 2 + inject_Z 100 |}).
Proof. vm_compute. reflexivity. Qed.

(** An id that the document does not have: the default price of 1000 and
    the default name. *)
Example demo_booking_unknown_experience :
  match settle (createBooking downEnv (bookingFor "42" 2)) 0 with
  | Resolved r =>
      match BookingResponse.data r with
      | Some d => BookingData.experienceName d = "Experience" /\
                  (BookingData.total d == 2100)%Q
      | None => False
      end
  | Rejected _ => False
  end.
Proof. vm_compute. split; reflexivity. Qed.

Example demo_promo_bogus :
  settle (validatePromoCode demoEnv "bogus" 1000) 0 = Resolved promoFailure.
Proof. vm_compute. reflexivity. Qed.

Example demo_promo_welcome :
  settle (validatePromoCode downEnv "Welcome20" 1299.5) 0
  = Resolved (promoSuccess "WELCOME20" (percentPromo 20) 260).
Proof. vm_compute. reflexivity. Qed.

(** * Further properties of the client *)

(** ** The origin of the backend *)

Lemma append_length_ne (a b c : string) :
  String.length a <> 0%nat -> (a ++ b)%string = c -> String.length b <> String.length c.
Proof.
  intros Ha <-. rewrite DateFacts.length_append. lia.
Qed.

Lemma replace_api_suffix_cons (c : ascii) (r : string) :
  replace_api_suffix (String c r) =
  if String.eqb (String c r) "/api" || String.eqb (String c r) "/api/" then EmptyString
  else String c (replace_api_suffix r).
Proof. reflexivity. Qed.

Lemma replace_api_suffix_api (o : string) : replace_api_suffix (o ++ "/api") = o.
Proof.
  induction o as [| c o IH]; [reflexivity |].
  change (String c o ++ "/api") with (String c (o ++ "/api")).
  rewrite replace_api_suffix_cons.
  destruct (String.eqb_spec (String c (o ++ "/api")) "/api") as [E | _].
  { apply (f_equal String.length) in E. cbn in E.
    rewrite DateFacts.length_append in E. cbn in E. lia. }
  destruct (String.eqb_spec (String c (o ++ "/api")) "/api/") as [E | _].
  { exfalso. pose proof (f_equal String.length E) as L. cbn in L.
    rewrite DateFacts.length_append in L. cbn in L.
    destruct o; [| cbn in L; lia]. cbn in E. injection E as _ E. discriminate E. }
  cbn [orb]. by rewrite IH.
Qed.

Lemma replace_api_suffix_api_slash (o : string) : replace_api_suffix (o ++ "/api/") = o.
Proof.
  induction o as [| c o IH]; [reflexivity |].
  change (String c o ++ "/api/") with (String c (o ++ "/api/")).
  rewrite replace_api_suffix_cons.
  destruct (String.eqb_spec (String c (o ++ "/api/")) "/api") as [E | _].
  { apply (f_equal String.length) in E. cbn in E.
    rewrite DateFacts.length_append in E. cbn in E. lia. }
  destruct (String.eqb_spec (String c (o ++ "/api/")) "/api/") as [E | _].
  { apply (f_equal String.length) in E. cbn in E.
    rewrite DateFacts.length_append in E. cbn in E. lia. }
  cbn [orb]. by rewrite IH.
Qed.

Lemma replace_api_suffix_other (s : string) :
  (forall o, s <> o ++ "/api") -> (forall o, s <> o ++ "/api/") ->
  replace_api_suffix s = s.
Proof.
  induction s as [| c r IH]; intros H1 H2; [reflexivity |].
  rewrite replace_api_suffix_cons.
  destruct (String.eqb_spec (String c r) "/api") as [E | _].
  { exfalso. apply (H1 EmptyString). exact E. }
  destruct (String.eqb_spec (String c r) "/api/") as [E | _].
  { exfalso. apply (H2 EmptyString). exact E. }
  cbn [orb]. rewrite IH; [reflexivity | |].
  - intros o ->. apply (H1 (String c o)). reflexivity.
  - intros o ->. apply (H2 (String c o)). reflexivity.
Qed.

Lemma replace_api_suffix_prefix (s : string) :
  s = replace_api_suffix s \/
  s = replace_api_suffix s ++ "/api" \/
  s = replace_api_suffix s ++ "/api/".
Proof.
  induction s as [| c r IH]; [left; reflexivity |].
  rewrite replace_api_suffix_cons.
  destruct (String.eqb_spec (String c r) "/api") as [E | _];
    [right; left; exact E |].
  destruct (String.eqb_spec (String c r) "/api/") as [E | _];
    [right; right; exact E |].
  cbn [orb].
  destruct IH as [IH | [IH | IH]]; [left | right; left | right; right];
    [| change (String c (replace_api_suffix r) ++ "/api")
         with (String c (replace_api_suffix r ++ "/api"))
     | change (String c (replace_api_suffix r) ++ "/api/")
         with (String c (replace_api_suffix r ++ "/api/"))];
    by rewrite <- IH.
Qed.

Lemma str_or_empty (s : string) : str_or s EmptyString = s.
Proof. by destruct s. Qed.

(** X1. [API_ORIGIN] is the configured base address without a trailing
    "/api" or "/api/": it is empty when no address is configured, it gives
    [o] back for the addresses [o ++ "/api"] and [o ++ "/api/"], it leaves
    any other address as it is, and it never removes anything else. *)
Theorem API_ORIGIN_strips_api_suffix (env : Env) :
  (configured env = false -> API_ORIGIN env = EmptyString) /\
  (forall o, API_BASE_URL env = Some (o ++ "/api") -> API_ORIGIN env = o) /\
  (forall o, API_BASE_URL env = Some (o ++ "/api/") -> API_ORIGIN env = o) /\
  (forall url, API_BASE_URL env = Some url ->
     (forall o, url <> o ++ "/api") -> (forall o, url <> o ++ "/api/") ->
     API_ORIGIN env = url) /\
  (forall url, API_BASE_URL env = Some url ->
     url = API_ORIGIN env \/ url = API_ORIGIN env ++ "/api" \/
     url = API_ORIGIN env ++ "/api/").
Proof.
  unfold API_ORIGIN, configured.
  split; [| split; [| split; [| split]]].
  - destruct (API_BASE_URL env) as [[| c r] |]; [reflexivity | discriminate | reflexivity].
  - intros o ->. rewrite str_or_empty. apply replace_api_suffix_api.
  - intros o ->. rewrite str_or_empty. apply replace_api_suffix_api_slash.
  - intros url -> H1 H2. rewrite str_or_empty. by apply replace_api_suffix_other.
  - intros url ->. rewrite str_or_empty. apply replace_api_suffix_prefix.
Qed.

(** ** The two paths of every operation *)

(** X2. With a base address configured, an answer of the backend is what
    each of the four operations resolves to, as it is (a refusal of the
    backend included), and the clock is not read. *)
Theorem backend_answer_is_returned (env : Env) :
  configured env = true ->
  (forall l t, api_get_experiences env = Resolved l ->
     getExperiences env t = (Resolved l, t)) /\
  (forall id d t, api_get_experience env id = Resolved d ->
     getExperienceById env id t = (Resolved d, t)) /\
  (forall booking r t, api_post_bookings env booking = Resolved r ->
     createBooking env booking t = (Resolved r, t)) /\
  (forall code subtotal v t, api_post_promo env code subtotal = Resolved v ->
     validatePromoCode env code subtotal t = (Resolved v, t)).
Proof.
  intros Hc.
  unfold getExperiences, getExperienceById, createBooking, validatePromoCode.
  rewrite Hc. unfold catch, await.
  repeat split; intros; by match goal with H : _ = Resolved _ |- _ => rewrite H end.
Qed.

Lemma unset_not_configured env : unset env -> configured env = false.
Proof. unfold configured. by intros [-> | ->]. Qed.

Lemma ensureSlots_loop_same_host env env' found todo :
  same_host env env' -> forall out t,
  ensureSlots_loop env found todo out t = ensureSlots_loop env' found todo out t.
Proof.
  intros (_ & Hclock & Hzone).
  induction todo as [| i rest IH]; intros out t; [reflexivity |].
  rewrite !ensureSlots_loop_cons. unfold Date.UTC, Date.LocalTime.
  by rewrite Hclock, !Hzone, IH.
Qed.

Lemma getExperienceById_static_same_host env env' id t :
  same_host env env' ->
  getExperienceById_static env id t = getExperienceById_static env' id t.
Proof.
  intros Hsame. pose proof Hsame as (Hfetch & _ & _).
  unfold getExperienceById_static, bind, await. rewrite Hfetch.
  destruct (fetch_static env') as [json | e]; [| reflexivity].
  destruct (find _ _) as [found |]; [| reflexivity].
  unfold ensureSlots.
  destruct (RawExperience.slots found) as [[| s l] |]; try reflexivity;
    by rewrite (ensureSlots_loop_same_host env env').
Qed.

(** X3. A base address that is unset or empty switches the backend off:
    two hosts without one that have the same static document, clock and
    time zone get the same from all four operations, whatever their
    backends would answer. *)
Theorem unset_backend_is_never_asked (env env' : Env) :
  unset env -> unset env' -> same_host env env' ->
  (forall t, getExperiences env t = getExperiences env' t) /\
  (forall id t, getExperienceById env id t = getExperienceById env' id t) /\
  (forall booking t, createBooking env booking t = createBooking env' booking t) /\
  (forall code subtotal t,
     validatePromoCode env code subtotal t = validatePromoCode env' code subtotal t).
Proof.
  intros Hu Hu' Hsame.
  apply unset_not_configured in Hu, Hu'.
  pose proof Hsame as (Hfetch & Hclock & _).
  assert (Hdetail : forall id t, getExperienceById env id t = getExperienceById env' id t).
  { intros id t. unfold getExperienceById. rewrite Hu, Hu'.
    by apply getExperienceById_static_same_host. }
  split; [| split; [exact Hdetail | split]].
  - intros t. unfold getExperiences. rewrite Hu, Hu'.
    by rewrite !getExperiences_static_settles, Hfetch.
  - intros booking t. unfold createBooking. rewrite Hu, Hu'.
    rewrite !createBooking_static_run.
    unfold lookupTicks, unitPrice, priceLookup, settle, ticks.
    by rewrite Hdetail, Hclock.
  - intros code subtotal t. unfold validatePromoCode. by rewrite Hu, Hu'.
Qed.

(** ** When the operations fail *)

(** X4. [getExperiences] rejects in one case only: no answer of the
    backend was used and fetching the static document failed; the error
    is then that of the fetch, never that of the backend. *)
Theorem getExperiences_rejects_iff (env : Env) (t : nat) (x : exn) :
  settle (getExperiences env) t = Rejected x <->
  fallback env (api_get_experiences env) /\ fetch_static env = Rejected x.
Proof.
  split.
  - intros H.
    assert (Hfb : fallback env (api_get_experiences env)).
    { unfold fallback. unfold settle, getExperiences, catch, await in H.
      destruct (configured env); [| by left].
      destruct (api_get_experiences env) as [l | e]; [discriminate | right; eauto]. }
    split; [exact Hfb |].
    unfold settle in H.
    rewrite getExperiences_fallback, getExperiences_static_settles in H by exact Hfb.
    destruct (fetch_static env); simpl in H; congruence.
  - intros [Hfb Hx]. unfold settle.
    by rewrite getExperiences_fallback, getExperiences_static_settles, Hx.
Qed.

(** X5. [getExperienceById] rejects in two cases only, both on the
    fallback path: fetching the static document failed, with the error of
    the fetch, or the document has no entry with the id, with the error
    "Experience not found in static data". *)
Theorem getExperienceById_rejects_iff (env : Env) (id : string) (t : nat) (x : exn) :
  settle (getExperienceById env id) t = Rejected x <->
  fallback env (api_get_experience env id) /\
  (fetch_static env = Rejected x \/
   exists json, fetch_static env = Resolved json /\
                Forall (fun e => ~ has_id id e) (experiences_or_empty json) /\
                x = NotFoundError).
Proof.
  split.
  - intros H.
    assert (Hfb : fallback env (api_get_experience env id)).
    { unfold fallback. unfold settle, getExperienceById, catch, await in H.
      destruct (configured env); [| by left].
      destruct (api_get_experience env id) as [d | e]; [discriminate | right; eauto]. }
    split; [exact Hfb |].
    unfold settle in H. rewrite getExperienceById_fallback in H by exact Hfb.
    destruct (getExperienceById_static_cases env id t)
      as [(e & He & Hr) | (json & Hjson & [[Habs Hr] | (found & raw & t' & _ & _ & Hr)])];
      rewrite Hr in H; simpl in H.
    + left. congruence.
    + right. exists json. injection H as <-. by repeat split.
    + discriminate.
  - intros [Hfb Hx]. unfold settle. rewrite getExperienceById_fallback by exact Hfb.
    destruct (getExperienceById_static_cases env id t)
      as [(e & He & ->) | (json & Hjson & [[Habs ->] | (found & raw & t' & Hfound & _ & ->)])];
      simpl.
    + destruct Hx as [Hx | (json & Hjson & _)]; congruence.
    + destruct Hx as [Hx | (json' & _ & _ & ->)]; [congruence | reflexivity].
    + exfalso. destruct Hx as [Hx | (json' & Hjson' & Habs & _)]; [congruence |].
      assert (json' = json) as -> by congruence.
      destruct Hfound as (pre & post & Hl & _ & Hid).
      rewrite Hl in Habs. apply Forall_app in Habs as [_ Habs].
      apply Forall_cons in Habs as [Hn _]. contradiction.
Qed.

Lemma validatePromoCode_static_resolves code subtotal t :
  exists v, validatePromoCode_static code subtotal t = (Resolved v, t).
Proof.
  unfold validatePromoCode_static.
  destruct (promos !! toUpperCase code); eexists; reflexivity.
Qed.

(** X6. [createBooking] and [validatePromoCode] never reject, on either
    path and whatever the backend, the static document and the request
    are: a failure of theirs reaches the caller as a resolved value. *)
Theorem createBooking_and_validatePromoCode_always_resolve (env : Env) :
  (forall booking t, exists r, settle (createBooking env booking) t = Resolved r) /\
  (forall code subtotal t,
     exists v, settle (validatePromoCode env code subtotal) t = Resolved v).
Proof.
  split.
  - intros booking t. unfold settle, createBooking.
    destruct (configured env).
    + unfold catch, await.
      destruct (api_post_bookings env booking) as [r | e]; [eexists; reflexivity |].
      rewrite createBooking_static_run. eexists; reflexivity.
    + rewrite createBooking_static_run. eexists; reflexivity.
  - intros code subtotal t. unfold settle, validatePromoCode.
    destruct (validatePromoCode_static_resolves code subtotal t) as [v Hv].
    destruct (configured env).
    + unfold catch, await.
      destruct (api_post_promo env code subtotal) as [r | e]; [eexists; reflexivity |].
      rewrite Hv. eexists; reflexivity.
    + rewrite Hv. eexists; reflexivity.
Qed.

(** ** Documents without experiences *)


(** ** From the listing to the detail *)

Lemma In_map_injective {A B : Type} (f : A -> B) (l : list A) (a b : A) :
  NoDup (map f l) -> In a l -> In b l -> f a = f b -> a = b.
Proof.
  induction l as [| c l IH]; [intros _ [] |].
  cbn [map]. intros Hnd Ha Hb Hab.
  apply NoDup_cons in Hnd as [Hc Hnd].
  assert (Hin : forall x, In x l -> f x <> f c).
  { intros x Hx E. apply Hc. rewrite <- E. apply list_elem_of_In, in_map, Hx. }
  destruct Ha as [<- | Ha], Hb as [<- | Hb].
  - reflexivity.
  - exfalso. apply (Hin b Hb). congruence.
  - exfalso. apply (Hin a Ha). congruence.
  - by apply IH.
Qed.

(** X8. On the fallback path every experience of the listing has a
    detail: [getExperienceById] of its id resolves to a detail with that
    id. When the ids of the listing are all different, the detail has the
    name, location, description, image and price of the listing too; when
    two entries share an id, the detail is that of the first. *)
Theorem listed_experience_has_a_detail
    (env : Env) (l : list Experience.t) (t t' : nat) :
  fallback env (api_get_experiences env) ->
  (forall id, fallback env (api_get_experience env id)) ->
  settle (getExperiences env) t = Resolved l ->
  (forall x, In x l ->
     exists d, settle (getExperienceById env (Experience.id x)) t' = Resolved d /\
               ExperienceDetail.id d = Experience.id x) /\
  (NoDup (map Experience.id l) ->
   forall x, In x l ->
     exists d, settle (getExperienceById env (Experience.id x)) t' = Resolved d /\
               same_card x d).
Proof.
  intros Hfb Hfb' Hl.
  unfold settle in Hl.
  rewrite getExperiences_fallback, getExperiences_static_settles in Hl by exact Hfb.
  destruct (fetch_static env) as [json | e] eqn:Hjson; [| discriminate].
  injection Hl as <-.
  assert (Hdetail : forall x, In x (map toExperience (experiences_or_empty json)) ->
            exists found raw,
              In found (experiences_or_empty json) /\
              Experience.id (toExperience found) = Experience.id x /\
              settle (getExperienceById env (Experience.id x)) t'
              = Resolved (detailOf found raw)).
  { intros x Hx. apply in_map_iff in Hx as (e & <- & He).
    unfold settle. rewrite getExperienceById_fallback by apply Hfb'.
    destruct (getExperienceById_static_cases env (Experience.id (toExperience e)) t')
      as [(err & Herr & _) | (json' & Hjson' & Hcases)]; [congruence |].
    assert (json' = json) as -> by congruence.
    destruct Hcases as [[Habs _] | (found & raw & t'' & Hfound & _ & ->)].
    - exfalso. rewrite Forall_forall in Habs.
      apply (Habs e); [by apply list_elem_of_In | reflexivity].
    - exists found, raw. destruct Hfound as (pre & post & Hex & _ & Hid).
      split; [| split; [exact Hid | reflexivity]].
      rewrite Hex. apply in_or_app. right. by left. }
  split.
  - intros x Hx. destruct (Hdetail x Hx) as (found & raw & _ & Hid & ->).
    eexists. split; [reflexivity | exact Hid].
  - intros Hnd x Hx. destruct (Hdetail x Hx) as (found & raw & Hin & Hid & ->).
    eexists. split; [reflexivity |].
    assert (toExperience found = x) as <-.
    { apply (In_map_injective Experience.id (map toExperience (experiences_or_empty json)));
        [exact Hnd | by apply in_map | exact Hx | exact Hid]. }
    repeat split.
Qed.

(** ** The slots of a detail *)

Lemma Forall2_kept_map found raw :
  Forall2 (kept (String_of_id (RawExperience.id found))) raw (map (toSlot found) raw).
Proof. induction raw; constructor; [repeat split | assumption]. Qed.

(** X9. On the fallback path, the slots of an entry that has some are
    returned one for one and in order, the id of each as a string and the
    id of the experience added; nothing is synthesized and the clock is
    not read. *)
Theorem getExperienceById_keeps_static_slots
    (env : Env) (json : StaticJson.t) (found : RawExperience.t) (id : string) (t : nat)
    (s : RawSlot.t) (rest : list RawSlot.t) :
  fallback env (api_get_experience env id) ->
  fetch_static env = Resolved json ->
  first_with_id id (experiences_or_empty json) found ->
  RawExperience.slots found = Some (s :: rest) ->
  exists d : ExperienceDetail.t,
    getExperienceById env id t = (Resolved d, t) /\
    Forall2 (kept id) (s :: rest) (ExperienceDetail.slots d) /\
    length (ExperienceDetail.slots d) = S (length rest).
Proof.
  intros Hfb Hjson Hfound Hslots.
  pose proof Hfound as (_ & _ & _ & _ & Hid). unfold has_id in Hid.
  exists (detailOf found (s :: rest)). split; [| split].
  - rewrite getExperienceById_fallback by exact Hfb.
    unfold getExperienceById_static, bind, await. rewrite Hjson.
    fold (id_test id). rewrite (find_first_with_id _ _ _ Hfound).
    unfold ensureSlots. rewrite Hslots. reflexivity.
  - rewrite <- Hid. apply Forall2_kept_map.
  - cbn. by rewrite length_map.
Qed.

(** X10. A detail of the fallback path always has slots: either the
    clock was not read and they are those of the static document, or the
    clock was read five times and there are 20 of them. *)
Theorem getExperienceById_slots_never_empty
    (env : Env) (id : string) (t : nat) (d : ExperienceDetail.t) :
  fallback env (api_get_experience env id) ->
  settle (getExperienceById env id) t = Resolved d ->
  ExperienceDetail.slots d <> [] /\
  ((ticks (getExperienceById env id) t = t /\
    exists json found,
      fetch_static env = Resolved json /\
      first_with_id id (experiences_or_empty json) found /\
      option_map (@length _) (RawExperience.slots found)
      = Some (length (ExperienceDetail.slots d))) \/
   (ticks (getExperienceById env id) t = (t + 5)%nat /\
    length (ExperienceDetail.slots d) = 20%nat)).
Proof.
  intros Hfb. unfold settle, ticks.
  rewrite getExperienceById_fallback by exact Hfb.
  destruct (getExperienceById_static_cases env id t)
    as [(e & He & ->) | (json & Hjson & [[Habs ->] | (found & raw & t' & Hfound & Hraw & ->)])];
    simpl; try discriminate.
  intros [= <-]. cbn [detailOf ExperienceDetail.slots].
  destruct (RawExperience.slots found) as [[| s l] |] eqn:Hslots.
  - rewrite (ensureSlots_synthesizes env found t) in Hraw by (by right).
    injection Hraw as <- <-. split; [discriminate | right; by split].
  - unfold ensureSlots in Hraw. rewrite Hslots in Hraw. injection Hraw as <- <-.
    split; [discriminate | left]. split; [reflexivity |].
    exists json, found. repeat split; try assumption.
    rewrite Hslots. cbn. by rewrite length_map.
  - rewrite (ensureSlots_synthesizes env found t) in Hraw by (by left).
    injection Hraw as <- <-. split; [discriminate | right; by split].
Qed.

(** ** The amounts of a simulated booking *)

Lemma Math_round_bounds (x : number) :
  (x - (1 # 2) < inject_Z (Math_round x))%Q /\ (inject_Z (Math_round x) <= x + (1 # 2))%Q.
Proof.
  unfold Math_round.
  pose proof (Qfloor_le (x + (1 # 2))) as Hle.
  pose proof (Qlt_floor (x + (1 # 2))) as Hlt.
  rewrite inject_Z_plus in Hlt. change (inject_Z 1) with 1%Q in Hlt. split; lra.
Qed.

Lemma Math_round_nonneg (x : number) : (0 <= x)%Q -> (0 <= Math_round x)%Z.
Proof.
  intros Hx. unfold Math_round.
  change 0%Z with (Qfloor 0). apply Qfloor_resp_le. lra.
Qed.

Lemma Math_round_nonpos (x : number) : (x < 0)%Q -> (Math_round x <= 0)%Z.
Proof.
  intros Hx. pose proof (Math_round_bounds x) as [_ Hhi].
  assert (H : (inject_Z (Math_round x) < inject_Z 1)%Q) by (change (inject_Z 1) with 1%Q; lra).
  rewrite <- Zlt_Qlt in H. lia.
Qed.

Lemma Math_round_mono (x y : number) : (x <= y)%Q -> (Math_round x <= Math_round y)%Z.
Proof. intros H. unfold Math_round. apply Qfloor_resp_le. lra. Qed.

(** X11. When the price and the quantity of a simulated booking are
    integers and [price * qty] is at most 10^15 in absolute value, the
    total, which is also the total that the binary64 operations of the
    source give, is an integer within half a unit of [price * qty * 1.05],
    at least the base [price * qty] when the base is not negative and at
    most the base when it is negative. *)
Theorem createBooking_static_total_bounds
    (env : Env) (booking : BookingRequest.t) (t : nat) :
  fallback env (api_post_bookings env booking) ->
  let base := (unitPrice env booking t * effectiveQuantity booking)%Q in
  is_integer (unitPrice env booking t) ->
  is_integer (effectiveQuantity booking) ->
  (Qabs base <= exactAmountBound)%Q ->
  exists d : BookingData.t,
    settle (createBooking env booking) t = Resolved (simulated d) /\
    (total_binary64 (unitPrice env booking t) (effectiveQuantity booking)
     == BookingData.total d)%Q /\
    (base * 1.05 - (1 # 2) < BookingData.total d)%Q /\
    (BookingData.total d <= base * 1.05 + (1 # 2))%Q /\
    is_integer (BookingData.total d) /\
    is_integer (BookingData.total d - base)%Q /\
    ((0 <= base)%Q -> (base <= BookingData.total d)%Q) /\
    ((base < 0)%Q -> (BookingData.total d <= base)%Q).
Proof.
  intros Hfb base Hprice Hqty Hbound.
  pose proof (is_integer_mult _ _ Hprice Hqty) as Hbase. fold base in Hbase.
  eexists. split.
  { unfold settle. rewrite createBooking_fallback, createBooking_static_run by exact Hfb.
    reflexivity. }
  cbn [BookingData.total]. fold base.
  split; [exact (proj2 (proj2 (binary64_amounts _ _ Hbase Hbound))) |].
  pose proof (Math_round_bounds (base * 0.05)) as [Hlo Hhi].
  split; [lra |]. split; [lra |]. split; [| split; [| split]].
  - unfold is_integer in *.
    assert (E : (base + inject_Z (Math_round (base * 0.05))
                 == inject_Z (Qfloor base + Math_round (base * 0.05)))%Q)
      by (rewrite inject_Z_plus, Hbase; reflexivity).
    rewrite (Qfloor_comp _ _ E), Qfloor_Z, E. reflexivity.
  - unfold is_integer.
    rewrite (Qfloor_comp _ (inject_Z (Math_round (base * 0.05)))) by ring.
    rewrite Qfloor_Z. ring.
  - intros Hb. pose proof (Math_round_nonneg (base * 0.05)) as H.
    assert (Hz : (0 <= Math_round (base * 0.05))%Z) by (apply H; lra).
    rewrite Zle_Qle in Hz. change (inject_Z 0) with 0%Q in Hz. lra.
  - intros Hb. pose proof (Math_round_nonpos (base * 0.05)) as H.
    assert (Hz : (Math_round (base * 0.05) <= 0)%Z) by (apply H; lra).
    rewrite Zle_Qle in Hz. change (inject_Z 0) with 0%Q in Hz. lra.
Qed.

(** Outside the integer amounts the two arithmetics part: a price of 16.4
    and a quantity of 175 give a base of 2869.9999999999995 and a total of
    3012.9999999999995 in binary64, 2870 and 3014 on exact numbers. *)
Example total_binary64_of_16_4_by_175 :
  (base_binary64 (Binary64.fl 16.4) 175 == 6311196743434239 # 2199023255552)%Q /\
  taxes_binary64 (Binary64.fl 16.4) 175 = 143%Z /\
  (total_binary64 (Binary64.fl 16.4) 175 == 6625657068978175 # 2199023255552)%Q /\
  (16.4 * 175 + inject_Z (Math_round (16.4 * 175 * 0.05)) == 3014)%Q.
Proof. repeat split; vm_compute; reflexivity. Qed.

(** X12. The simulated booking does not look at the sign of the
    quantity: a request for a negative quantity of an experience with a
    price above zero succeeds like any other, with that quantity and a
    total below zero. *)
Theorem createBooking_static_accepts_negative_quantity
    (env : Env) (booking : BookingRequest.t) (t : nat) :
  fallback env (api_post_bookings env booking) ->
  (0 < unitPrice env booking t)%Q ->
  (BookingRequest.quantity booking < 0)%Q ->
  exists d : BookingData.t,
    settle (createBooking env booking) t = Resolved (simulated d) /\
    BookingData.quantity d = BookingRequest.quantity booking /\
    (BookingData.total d < 0)%Q.
Proof.
  intros Hfb Hp Hq.
  assert (Hqty : effectiveQuantity booking = BookingRequest.quantity booking).
  { unfold effectiveQuantity.
    destruct (Qeq_bool (BookingRequest.quantity booking) 0) eqn:E; [| reflexivity].
    apply Qeq_bool_iff in E. rewrite E in Hq. lra. }
  eexists. split.
  { unfold settle. rewrite createBooking_fallback, createBooking_static_run by exact Hfb.
    reflexivity. }
  cbn [BookingData.quantity BookingData.total]. rewrite Hqty.
  split; [reflexivity |].
  assert (Hb : (unitPrice env booking t * BookingRequest.quantity booking < 0)%Q).
  { assert (H0 : (unitPrice env booking t * BookingRequest.quantity booking
                  < unitPrice env booking t * 0)%Q) by (apply Qmult_lt_l; assumption).
    by rewrite Qmult_0_r in H0. }
  pose proof (Math_round_nonpos
                (unitPrice env booking t * BookingRequest.quantity booking * 0.05)) as H.
  assert (Hz : (Math_round (unitPrice env booking t * BookingRequest.quantity booking * 0.05)
                <= 0)%Z) by (apply H; lra).
  rewrite Zle_Qle in Hz. change (inject_Z 0) with 0%Q in Hz. lra.
Qed.

(** X13. The fallback of [createBooking] prices through
    [getExperienceById], which asks the backend first: when posting the
    booking failed and the backend answers the lookup, the price and the
    name of the simulated booking are those of the backend's detail,
    whatever the static document holds, and the clock is read once, for
    the reference. For an integer price and an integer quantity with a
    product of at most 10^15 in absolute value the total is
    [base + round (base * 0.05)] with [base = price * qty], in binary64
    as on exact numbers. *)
Theorem createBooking_static_prices_from_backend
    (env : Env) (booking : BookingRequest.t) (t : nat) (e : exn) (r : ExperienceDetail.t) :
  configured env = true ->
  api_post_bookings env booking = Rejected e ->
  api_get_experience env (BookingRequest.experienceId booking) = Resolved r ->
  let price := ExperienceDetail.price r in
  let qty := effectiveQuantity booking in
  let base := (price * qty)%Q in
  exists d : BookingData.t,
    createBooking env booking t = (Resolved (simulated d), S t) /\
    unitPrice env booking t = price /\
    (is_integer price -> is_integer qty -> (Qabs base <= exactAmountBound)%Q ->
     BookingData.total d = (base + inject_Z (Math_round (base * 0.05)))%Q /\
     (total_binary64 price qty == BookingData.total d)%Q) /\
    BookingData.experienceName d = str_or (ExperienceDetail.name r) "Experience" /\
    BookingData.bookingRef d = "DEMO-" ++ String_of_Z (clock env t).
Proof.
  intros Hc Hpost Hget price qty base.
  assert (Hfb : fallback env (api_post_bookings env booking)) by (right; eauto).
  assert (Hdetail : getExperienceById env (BookingRequest.experienceId booking) t
                    = (Resolved r, t)).
  { unfold getExperienceById, catch, await. by rewrite Hc, Hget. }
  assert (Hprice : unitPrice env booking t = price).
  { unfold unitPrice, priceLookup, settle. by rewrite Hdetail. }
  eexists. split.
  { rewrite createBooking_fallback, createBooking_static_run by exact Hfb.
    unfold lookupTicks, unitPrice, priceLookup, settle, ticks. rewrite Hdetail.
    reflexivity. }
  split; [exact Hprice |]. split; [| split; reflexivity].
  intros Hp Hq Hb. cbn [BookingData.total]. fold price qty base.
  split; [reflexivity |].
  exact (proj2 (proj2 (binary64_amounts price qty (is_integer_mult _ _ Hp Hq) Hb))).
Qed.

(** X14. The data of a simulated booking repeat the date and the time of
    the request, and name an experience: the name of the detail found, or
    "Experience" when there is none or its name is empty; the name is
    never empty. *)
Theorem createBooking_static_names_the_experience
    (env : Env) (booking : BookingRequest.t) (t : nat) :
  fallback env (api_post_bookings env booking) ->
  exists d : BookingData.t,
    settle (createBooking env booking) t = Resolved (simulated d) /\
    BookingData.date d = BookingRequest.date booking /\
    BookingData.time d = BookingRequest.time booking /\
    BookingData.experienceName d <> EmptyString /\
    (forall r, settle (getExperienceById env (BookingRequest.experienceId booking)) t
               = Resolved r ->
               ExperienceDetail.name r <> EmptyString ->
               BookingData.experienceName d = ExperienceDetail.name r) /\
    (forall x, settle (getExperienceById env (BookingRequest.experienceId booking)) t
               = Rejected x ->
               BookingData.experienceName d = "Experience").
Proof.
  intros Hfb.
  eexists. split.
  { unfold settle. rewrite createBooking_fallback, createBooking_static_run by exact Hfb.
    reflexivity. }
  cbn [BookingData.date BookingData.time BookingData.experienceName].
  split; [reflexivity |]. split; [reflexivity |].
  unfold priceLookup.
  destruct (settle (getExperienceById env (BookingRequest.experienceId booking)) t)
    as [r | x].
  - split; [| split].
    + destruct (ExperienceDetail.name r); discriminate.
    + intros r' [= <-] Hname. by destruct (ExperienceDetail.name r).
    + discriminate.
  - split; [discriminate | split; [discriminate | reflexivity]].
Qed.

(** ** Promo codes, whatever their case and subtotal *)

Lemma upper_ascii_idempotent (c : ascii) : upper_ascii (upper_ascii c) = upper_ascii c.
Proof. destruct c as [[] [] [] [] [] [] [] []]; reflexivity. Qed.

Lemma toUpperCase_idempotent (s : string) : toUpperCase (toUpperCase s) = toUpperCase s.
Proof.
  induction s as [| c s IH]; [reflexivity |].
  cbn [toUpperCase]. by rewrite upper_ascii_idempotent, IH.
Qed.

Lemma validatePromoCode_static_same_key c1 c2 subtotal t1 t2 :
  toUpperCase c1 = toUpperCase c2 ->
  fst (validatePromoCode_static c1 subtotal t1) = fst (validatePromoCode_static c2 subtotal t2).
Proof.
  intros H. unfold validatePromoCode_static. rewrite H.
  by destruct (promos !! toUpperCase c2).
Qed.

(** What the static validation resolves to for a code of the table. *)
Lemma validatePromoCode_static_known code subtotal t p :
  promos !! toUpperCase code = Some p ->
  validatePromoCode_static code subtotal t =
  (Resolved (promoSuccess (toUpperCase code) p
     match Promo.type p with
     | percentage => inject_Z (Math_round (subtotal * Promo.value p / 100)%Q)
     | flat => Promo.value p
     end), t).
Proof. intros H. unfold validatePromoCode_static. by rewrite H. Qed.

Lemma validatePromoCode_static_data code subtotal t v pd :
  settle (validatePromoCode_static code subtotal) t = Resolved v ->
  PromoValidation.data v = Some pd ->
  exists p, promos !! toUpperCase code = Some p /\
    pd = {| PromoData.code := toUpperCase code;
            PromoData.type := Promo.type p;
            PromoData.value := Promo.value p;
            PromoData.discount :=
              match Promo.type p with
              | percentage => inject_Z (Math_round (subtotal * Promo.value p / 100)%Q)
              | flat => Promo.value p
              end |}.
Proof.
  unfold settle, validatePromoCode_static.
  destruct (promos !! toUpperCase code) as [p |]; cbn; intros [= <-]; cbn; [| discriminate].
  intros [= <-]. by exists p.
Qed.

(** X15. The static validation does not look at the case of the code:
    two codes with the same uppercase form get the same outcome, and the
    code of a success is that uppercase form, a key of the table with the
    type and the value stored under it. *)
Theorem validatePromoCode_static_ignores_case
    (env : Env) (c1 c2 : string) (subtotal : number) (t1 t2 : nat) :
  fallback env (api_post_promo env c1 subtotal) ->
  fallback env (api_post_promo env c2 subtotal) ->
  toUpperCase c1 = toUpperCase c2 ->
  settle (validatePromoCode env c1 subtotal) t1
  = settle (validatePromoCode env c2 subtotal) t2 /\
  (forall v pd,
      settle (validatePromoCode env c1 subtotal) t1 = Resolved v ->
      PromoValidation.data v = Some pd ->
      PromoData.code pd = toUpperCase c1 /\
      toUpperCase (PromoData.code pd) = PromoData.code pd /\
      promos !! PromoData.code pd
      = Some {| Promo.type := PromoData.type pd; Promo.value := PromoData.value pd |}).
Proof.
  intros H1 H2 Hkey. unfold settle.
  rewrite !validatePromoCode_fallback by assumption.
  split; [by apply validatePromoCode_static_same_key |].
  intros v pd Hv Hpd.
  destruct (validatePromoCode_static_data c1 subtotal t1 v pd Hv Hpd) as (p & Hp & ->).
  cbn. split; [reflexivity |]. split; [apply toUpperCase_idempotent |].
  rewrite Hp. by destruct p.
Qed.

(** A rounded share [x] of a subtotal [s]: it stays between 0 and [s] as
    soon as [x + 1/2] does once it reaches 1. *)
Lemma rounded_share_bounds (x s : number) :
  (0 <= x)%Q -> (0 <= s)%Q -> ((1 <= x + (1 # 2))%Q -> (x + (1 # 2) <= s)%Q) ->
  (0 <= inject_Z (Math_round x))%Q /\ (inject_Z (Math_round x) <= s)%Q.
Proof.
  intros Hx Hs Hcap.
  pose proof (Math_round_bounds x) as [_ Hhi].
  pose proof (Math_round_nonneg x Hx) as Hd0.
  split; [change 0%Q with (inject_Z 0); by rewrite <- Zle_Qle |].
  destruct (Z.eq_dec (Math_round x) 0%Z) as [-> | Hne]; [exact Hs |].
  assert (Hd1 : (inject_Z 1 <= inject_Z (Math_round x))%Q) by (rewrite <- Zle_Qle; lia).
  change (inject_Z 1) with 1%Q in Hd1. lra.
Qed.

(** X16. The discount of a success is an integer. For a subtotal that is
    not negative it is not negative, and a percentage discount is at most
    the subtotal; the flat discount is 100 whatever the subtotal, so it is
    above any subtotal below 100. *)
Theorem validatePromoCode_static_discount_bounds
    (env : Env) (code : string) (subtotal : number) (t : nat)
    (v : PromoValidation.t) (pd : PromoData.t) :
  fallback env (api_post_promo env code subtotal) ->
  settle (validatePromoCode env code subtotal) t = Resolved v ->
  PromoValidation.data v = Some pd ->
  is_integer (PromoData.discount pd) /\
  ((0 <= subtotal)%Q -> (0 <= PromoData.discount pd)%Q) /\
  (PromoData.type pd = percentage -> (0 <= subtotal)%Q ->
   (PromoData.discount pd <= subtotal)%Q) /\
  (PromoData.type pd = flat ->
   PromoData.discount pd = 100%Q /\
   ((subtotal < 100)%Q -> (subtotal < PromoData.discount pd)%Q)).
Proof.
  intros Hfb Hv Hpd. unfold settle in Hv.
  rewrite validatePromoCode_fallback in Hv by exact Hfb.
  destruct (validatePromoCode_static_data code subtotal t v pd Hv Hpd) as (p & Hp & ->).
  cbn [PromoData.discount PromoData.type].
  assert (Hint : forall x : number, is_integer (inject_Z (Math_round x))).
  { intros x. unfold is_integer. by rewrite Qfloor_Z. }
  apply promos_lookup in Hp as [[_ ->] | [[_ ->] | [_ ->]]];
    cbn [Promo.type Promo.value percentPromo flatPromo].
  - rewrite (Math_round_comp (subtotal * 10 / 100) (subtotal * (1 # 10))) by field.
    split; [apply Hint |].
    split; [intros Hs; eapply proj1, (rounded_share_bounds _ subtotal);
            [lra | lra | intros; lra] |].
    split; [| discriminate].
    intros _ Hs. eapply proj2, (rounded_share_bounds _ subtotal); [lra | lra | intros; lra].
  - split; [reflexivity |]. split; [intros _; lra |].
    split; [discriminate |]. intros _. split; [reflexivity | intros; assumption].
  - rewrite (Math_round_comp (subtotal * 20 / 100) (subtotal * (1 # 5))) by field.
    split; [apply Hint |].
    split; [intros Hs; eapply proj1, (rounded_share_bounds _ subtotal);
            [lra | lra | intros; lra] |].
    split; [| discriminate].
    intros _ Hs. eapply proj2, (rounded_share_bounds _ subtotal); [lra | lra | intros; lra].
Qed.

(** X17. For a code of the table a larger subtotal never gets a smaller
    discount. *)
Theorem validatePromoCode_static_discount_monotone
    (env : Env) (code : string) (s1 s2 : number) (t1 t2 : nat) (p : Promo.t) :
  fallback env (api_post_promo env code s1) ->
  fallback env (api_post_promo env code s2) ->
  promos !! toUpperCase code = Some p ->
  (s1 <= s2)%Q ->
  exists d1 d2 : number,
    settle (validatePromoCode env code s1) t1
    = Resolved (promoSuccess (toUpperCase code) p d1) /\
    settle (validatePromoCode env code s2) t2
    = Resolved (promoSuccess (toUpperCase code) p d2) /\
    (d1 <= d2)%Q.
Proof.
  intros H1 H2 Hp Hs. unfold settle.
  rewrite !validatePromoCode_fallback by assumption.
  rewrite !(validatePromoCode_static_known _ _ _ p Hp).
  eexists _, _. split; [reflexivity |]. split; [reflexivity |].
  apply promos_lookup in Hp as [[_ ->] | [[_ ->] | [_ ->]]];
    cbn [Promo.type Promo.value percentPromo flatPromo]; try lra;
    rewrite <- Zle_Qle; apply Math_round_mono;
    unfold Qdiv; (apply Qmult_le_compat_r; [lra | discriminate]).
Qed.

(** ** The ids of the synthesized slots *)

Lemma append_nil_l (b : string) : EmptyString ++ b = b.
Proof. reflexivity. Qed.

Lemma append_cons (c : ascii) (a b : string) : String c a ++ b = String c (a ++ b).
Proof. reflexivity. Qed.

Lemma append_inv_head (a b b' : string) : a ++ b = a ++ b' -> b = b'.
Proof.
  induction a as [| c a IH]; [by rewrite !append_nil_l |].
  rewrite !append_cons. intros [= H]. by apply IH.
Qed.

Lemma append_inj_length (a a' b b' : string) :
  String.length a = String.length a' -> a ++ b = a' ++ b' -> a = a' /\ b = b'.
Proof.
  revert a'. induction a as [| c a IH]; intros [| c' a'] Hlen; try discriminate.
  - by rewrite !append_nil_l.
  - rewrite !append_cons. intros [= -> H].
    destruct (IH a') as [-> ->]; [by injection Hlen | exact H | done].
Qed.

Lemma digits_value_pad (w : nat) (bound n : Z) :
  forallb (fun k => Z.eqb (digits_value 0 (Date.pad w (Z.of_nat k))) (Z.of_nat k))
          (seq 0 (Z.to_nat bound)) = true ->
  (0 <= n < bound)%Z ->
  digits_value 0 (Date.pad w n) = n.
Proof.
  intros Hall Hn.
  rewrite forallb_forall in Hall.
  specialize (Hall (Z.to_nat n)).
  rewrite Z2Nat.id in Hall by lia.
  apply Z.eqb_eq, Hall, in_seq. lia.
Qed.

Lemma pad2_inj (n m : Z) :
  (0 <= n < 100)%Z -> (0 <= m < 100)%Z -> Date.pad 2 n = Date.pad 2 m -> n = m.
Proof.
  intros Hn Hm E.
  rewrite <- (digits_value_pad 2 100 n), <- (digits_value_pad 2 100 m), E;
    [reflexivity | by vm_compute | lia | by vm_compute | lia].
Qed.

Lemma pad4_inj (n m : Z) :
  (0 <= n < 10000)%Z -> (0 <= m < 10000)%Z -> Date.pad 4 n = Date.pad 4 m -> n = m.
Proof.
  intros Hn Hm E.
  rewrite <- (digits_value_pad 4 10000 n), <- (digits_value_pad 4 10000 m), E;
    [reflexivity | by vm_compute | lia | by vm_compute | lia].
Qed.

(** A day is the day of its year, month and date. *)
Lemma Day_of_calendar (d : Z) :
  d = (Date.DayFromYear (Date.YearFromDay d)
       + Date.monthStart (Date.MonthFromTime (d * Date.msPerDay))
           (Date.InLeapYear (Date.YearFromDay d))
       + Date.DateFromTime (d * Date.msPerDay) - 1)%Z.
Proof.
  unfold Date.DateFromTime, Date.DayWithinYear, Date.YearFromTime.
  rewrite DateFacts.Day_of_midnight. lia.
Qed.

(** Two days of years of four digits with the same calendar date are the
    same day. *)
Lemma isoDateOfDay_inj (d d' : Z) :
  (0 <= Date.YearFromDay d <= 9999)%Z -> (0 <= Date.YearFromDay d' <= 9999)%Z ->
  Date.isoDateOfDay d = Date.isoDateOfDay d' -> d = d'.
Proof.
  intros Hy Hy' E.
  pose proof (DateFacts.MonthFromTime_range (d * Date.msPerDay)) as Hm.
  pose proof (DateFacts.MonthFromTime_range (d' * Date.msPerDay)) as Hm'.
  pose proof (DateFacts.DateFromTime_range (d * Date.msPerDay)) as Hd.
  pose proof (DateFacts.DateFromTime_range (d' * Date.msPerDay)) as Hd'.
  assert (Hyt : forall x, Date.YearFromTime (x * Date.msPerDay) = Date.YearFromDay x).
  { intros x. unfold Date.YearFromTime. by rewrite DateFacts.Day_of_midnight. }
  unfold Date.isoDateOfDay in E. cbv zeta in E. rewrite !Hyt in E.
  destruct (Z.leb_spec 0 (Date.YearFromDay d)); [| lia].
  destruct (Z.leb_spec (Date.YearFromDay d) 9999); [| lia].
  destruct (Z.leb_spec 0 (Date.YearFromDay d')); [| lia].
  destruct (Z.leb_spec (Date.YearFromDay d') 9999); [| lia].
  cbn [andb] in E.
  apply append_inj_length in E as [Ey E];
    [| by rewrite !DateFacts.pad4_length by lia].
  rewrite !append_cons, !append_nil_l in E. injection E as E.
  apply append_inj_length in E as [Em E];
    [| by rewrite !DateFacts.pad2_length by lia].
  rewrite ?append_cons, ?append_nil_l in E. injection E as Edt.
  apply pad4_inj in Ey; [| lia | lia].
  apply pad2_inj in Em; [| lia | lia].
  apply pad2_inj in Edt; [| lia | lia].
  rewrite (Day_of_calendar d), (Day_of_calendar d').
  rewrite Ey, Edt. replace (Date.MonthFromTime (d * Date.msPerDay))
    with (Date.MonthFromTime (d' * Date.msPerDay)) by lia.
  reflexivity.
Qed.

Lemma slotKey_inj (eid : string) (p q : string * string) :
  String.length (fst p) = String.length (fst q) ->
  slotKey eid p = slotKey eid q -> p = q.
Proof.
  destruct p as [d tm], q as [d' tm']. unfold slotKey, slotIdOf. cbn [fst snd].
  intros Hlen E.
  apply append_inv_head in E.
  rewrite !append_cons, !append_nil_l in E. injection E as E.
  apply append_inj_length in E as [-> E]; [| exact Hlen].
  rewrite ?append_cons, ?append_nil_l in E. by injection E as ->.
Qed.

Lemma NoDup_map_inj_on {A B : Type} (f : A -> B) (l : list A) :
  (forall x y, In x l -> In y l -> f x = f y -> x = y) ->
  List.NoDup l -> List.NoDup (map f l).
Proof.
  intros Hinj Hnd. induction Hnd as [| a l Ha Hnd IH]; cbn [map]; constructor.
  - intros Hin. apply in_map_iff in Hin as (b & Hb & Hbl).
    assert (b = a) as -> by (apply Hinj; [by right | by left | exact Hb]).
    contradiction.
  - apply IH. intros x y Hx Hy. apply Hinj; by right.
Qed.

Lemma NoDup_increasing5 (a b c d e : Z) :
  (a < b)%Z -> (b < c)%Z -> (c < d)%Z -> (d < e)%Z -> List.NoDup [a; b; c; d; e].
Proof.
  intros. repeat (constructor; [cbn; lia |]). constructor.
Qed.

Lemma Day_mono (x y : Z) : (x <= y)%Z -> (Date.Day x <= Date.Day y)%Z.
Proof. intros H. unfold Date.Day, Date.msPerDay. apply Z.div_le_mono; lia. Qed.

Lemma NoDup_list_prod {A B : Type} (l : list A) (l' : list B) :
  List.NoDup l -> List.NoDup l' -> List.NoDup (list_prod l l').
Proof.
  intros Hl Hl'. induction Hl as [| a l Ha Hl IH]; cbn [list_prod]; [constructor |].
  apply List.NoDup_app; [| exact IH |].
  - apply NoDup_map_inj_on; [| exact Hl']. by intros x y _ _ [= ->].
  - intros [a' b] Hin Hin'.
    apply in_map_iff in Hin as (b' & [= <- <-] & _).
    apply in_prod_iff in Hin' as [Hin' _]. contradiction.
Qed.

(** The run of [getExperienceById] that synthesizes the slots. *)
Lemma getExperienceById_synthesized_run env json found id t :
  fallback env (api_get_experience env id) ->
  fetch_static env = Resolved json ->
  first_with_id id (experiences_or_empty json) found ->
  no_slots found ->
  exists d : ExperienceDetail.t,
    getExperienceById env id t = (Resolved d, (t + 5)%nat) /\
    ExperienceDetail.slots d =
      concat (map (fun i => synthesizedDay id (isoDate (slotInstant env t i)))
                  [0; 1; 2; 3; 4]%nat).
Proof.
  intros Hfb Hjson Hfound Hno.
  pose proof Hfound as (_ & _ & _ & _ & Hid). unfold has_id in Hid.
  eexists. split.
  - rewrite getExperienceById_fallback by exact Hfb.
    unfold getExperienceById_static, bind, await. rewrite Hjson.
    fold (id_test id). rewrite (find_first_with_id _ _ _ Hfound).
    rewrite (ensureSlots_synthesizes _ _ _ Hno). reflexivity.
  - unfold times, synthesizedDay, synthesized, slotIdOf, toSlot, pushed.
    cbn [ExperienceDetail.slots map concat app TimeEntry.time TimeEntry.slots String_of_id
         RawSlot.id RawSlot.date RawSlot.time RawSlot.availableSpots RawSlot.totalSpots].
    rewrite Hid. reflexivity.
Qed.

(** X18. On a host at a fixed offset from UTC, when the clock does not
    run backwards between the five readings of a call and the years have
    four digits, the five dates of the synthesized schedule are all
    different, and so are the ids of its 20 slots. *)
Theorem synthesized_slot_ids_are_distinct
    (env : Env) (json : StaticJson.t) (found : RawExperience.t) (id : string) (t : nat)
    (tza : Z) :
  fallback env (api_get_experience env id) ->
  fetch_static env = Resolved json ->
  first_with_id id (experiences_or_empty json) found ->
  no_slots found ->
  fixed_offset env tza ->
  (forall i, (i < 4)%nat -> (clock env (t + i) <= clock env (t + S i))%Z) ->
  (forall i, (i < 5)%nat -> (0 <= Date.YearFromTime (slotInstant env t i) <= 9999)%Z) ->
  exists d : ExperienceDetail.t,
    settle (getExperienceById env id) t = Resolved d /\
    NoDup (map (fun i => isoDate (slotInstant env t i)) [0; 1; 2; 3; 4]%nat) /\
    NoDup (map Slot.id (ExperienceDetail.slots d)).
Proof.
  intros Hfb Hjson Hfound Hno Hfix Hclock Hyears.
  destruct (getExperienceById_synthesized_run env json found id t Hfb Hjson Hfound Hno)
    as (d & Hrun & Hslots).
  exists d. split; [unfold settle; by rewrite Hrun |].
  set (day := fun i : nat => (Date.Day (clock env (t + i)) + Z.of_nat i + 1)%Z).
  assert (Hdate : forall i, (i < 5)%nat ->
            isoDate (slotInstant env t i) = Date.isoDateOfDay (day i)).
  { intros i Hi. unfold isoDate.
    rewrite DateFacts.slice0_toISOString by (by apply Hyears).
    by rewrite (slotInstant_Day env tza). }
  assert (Hyear : forall i, (i < 5)%nat -> (0 <= Date.YearFromDay (day i) <= 9999)%Z).
  { intros i Hi. specialize (Hyears i Hi).
    unfold Date.YearFromTime in Hyears.
    by rewrite (slotInstant_Day env tza) in Hyears. }
  assert (Hdays : List.NoDup (map day [0; 1; 2; 3; 4]%nat)).
  { pose proof (Day_mono _ _ (Hclock 0%nat ltac:(lia))) as H0.
    pose proof (Day_mono _ _ (Hclock 1%nat ltac:(lia))) as H1.
    pose proof (Day_mono _ _ (Hclock 2%nat ltac:(lia))) as H2.
    pose proof (Day_mono _ _ (Hclock 3%nat ltac:(lia))) as H3.
    cbn [map]. unfold day. apply NoDup_increasing5; lia. }
  assert (Hdates : List.NoDup (map (fun i => isoDate (slotInstant env t i))
                                   [0; 1; 2; 3; 4]%nat)).
  { cbn [map]. rewrite !Hdate by lia.
    change (List.NoDup (map Date.isoDateOfDay (map day [0; 1; 2; 3; 4]%nat))).
    apply NoDup_map_inj_on; [| exact Hdays].
    intros x y Hx Hy. apply in_map_iff in Hx as (i & <- & Hi), Hy as (j & <- & Hj).
    apply isoDateOfDay_inj; apply Hyear.
    - cbn in Hi. lia.
    - cbn in Hj. lia. }
  split; [by apply NoDup_ListNoDup |].
  rewrite Hslots. apply NoDup_ListNoDup.
  change (List.NoDup
            (map (slotKey id)
                 (list_prod (map (fun i => isoDate (slotInstant env t i)) [0; 1; 2; 3; 4]%nat)
                            ["07:00 am"; "9:00 am"; "11:00 am"; "1:00 pm"]))).
  apply NoDup_map_inj_on.
  - intros p q Hp Hq. apply slotKey_inj.
    destruct p as [dp tp], q as [dq tq].
    apply in_prod_iff in Hp as [Hp _], Hq as [Hq _]. cbn [fst].
    apply in_map_iff in Hp as (i & <- & Hi), Hq as (j & <- & Hj).
    rewrite !Hdate by (cbn in Hi, Hj; lia).
    rewrite !DateFacts.isoDateOfDay_length; [reflexivity | |]; apply Hyear.
    + cbn in Hj. lia.
    + cbn in Hi. lia.
  - apply NoDup_list_prod; [exact Hdates |].
    repeat (constructor; [cbn; intuition discriminate |]). constructor.
Qed.

(** ** The further properties at the sample inputs *)

Lemma sunrise_first : first_with_id "2" (experiences_or_empty demoJson) sunrise.
Proof.
  exists [kayaking], [coffeeTrail].
  split; [reflexivity |]. split; [| reflexivity].
  apply Forall_cons_2; [unfold has_id; simpl; discriminate | apply Forall_nil_2].
Defined.

(** X2 at a backend that refuses the booking. *)
Lemma backend_answer_is_returned_witness :
  configured liveEnv = true /\
  createBooking liveEnv (bookingFor "1" 2) 0 = (Resolved remoteBooking, 0%nat) /\
  getExperienceById liveEnv "1" 0 = (Resolved remoteKayaking, 0%nat).
Proof.
  split; [reflexivity |].
  destruct (backend_answer_is_returned liveEnv eq_refl) as (_ & Hdetail & Hbook & _).
  split; [apply Hbook | apply Hdetail]; reflexivity.
Defined.

(** X3 at a host without a base address and a host with an empty one. *)
Lemma unset_backend_is_never_asked_witness :
  unset demoEnv /\ unset blankEnv /\ same_host demoEnv blankEnv /\
  getExperiences demoEnv 0 = getExperiences blankEnv 0 /\
  createBooking demoEnv (bookingFor "1" 2) 0 = createBooking blankEnv (bookingFor "1" 2) 0.
Proof.
  assert (H1 : unset demoEnv) by (left; reflexivity).
  assert (H2 : unset blankEnv) by (right; reflexivity).
  assert (H3 : same_host demoEnv blankEnv)
    by (split; [reflexivity | split; [intros n; reflexivity | reflexivity]]).
  split; [exact H1 |]. split; [exact H2 |]. split; [exact H3 |].
  destruct (unset_backend_is_never_asked demoEnv blankEnv H1 H2 H3) as (Hl & _ & Hb & _).
  split; [apply Hl | apply Hb].
Defined.


(** X8 at the sample document, for its third experience. *)
Lemma listed_experience_has_a_detail_witness :
  fallback demoEnv (api_get_experiences demoEnv) /\
  (forall id, fallback demoEnv (api_get_experience demoEnv id)) /\
  settle (getExperiences demoEnv) 0
  = Resolved (map toExperience [kayaking; sunrise; coffeeTrail]) /\
  exists d, settle (getExperienceById demoEnv "3") 0 = Resolved d /\
            same_card (toExperience coffeeTrail) d.
Proof.
  split; [apply demoEnv_fallback |]. split; [intros id; apply demoEnv_fallback |].
  split; [reflexivity |].
  destruct (listed_experience_has_a_detail demoEnv
              (map toExperience [kayaking; sunrise; coffeeTrail]) 0 0
              (demoEnv_fallback _) (fun id => demoEnv_fallback _) eq_refl) as [_ H].
  assert (Hnd : NoDup (map Experience.id
                         (map toExperience [kayaking; sunrise; coffeeTrail]))).
  { apply NoDup_ListNoDup. vm_compute.
    repeat (constructor; [cbn; intuition discriminate |]). constructor. }
  apply (H Hnd (toExperience coffeeTrail)).
  right. right. left. reflexivity.
Defined.

(** X9 at the entry "2" of the sample document, which brings one slot. *)
Lemma getExperienceById_keeps_static_slots_witness :
  fallback downEnv (api_get_experience downEnv "2") /\
  fetch_static downEnv = Resolved demoJson /\
  first_with_id "2" (experiences_or_empty demoJson) sunrise /\
  exists d : ExperienceDetail.t,
    getExperienceById downEnv "2" 0 = (Resolved d, 0%nat) /\
    length (ExperienceDetail.slots d) = 1%nat.
Proof.
  split; [apply downEnv_fallback; reflexivity |]. split; [reflexivity |].
  split; [exact sunrise_first |].
  destruct (getExperienceById_keeps_static_slots downEnv demoJson sunrise "2" 0 _ _
              (downEnv_fallback _ eq_refl) eq_refl sunrise_first eq_refl)
    as (d & Hd & _ & Hlen).
  exists d. split; [exact Hd | exact Hlen].
Defined.

(** X10 at the entry 1 of the sample document, whose slots are synthesized. *)
Lemma getExperienceById_slots_never_empty_witness :
  fallback demoEnv (api_get_experience demoEnv "1") /\
  exists d : ExperienceDetail.t,
    settle (getExperienceById demoEnv "1") 0 = Resolved d /\
    ExperienceDetail.slots d <> [].
Proof.
  split; [apply demoEnv_fallback |].
  eexists. split; [vm_compute; reflexivity |].
  apply (getExperienceById_slots_never_empty demoEnv "1" 0 _ (demoEnv_fallback _) eq_refl).
Defined.

(** X11 at a price of 899 and a quantity of 3. *)
Lemma createBooking_static_total_bounds_witness :
  fallback demoEnv (api_post_bookings demoEnv (bookingFor "2" 3)) /\
  is_integer (unitPrice demoEnv (bookingFor "2" 3) 0) /\
  is_integer (effectiveQuantity (bookingFor "2" 3)) /\
  (Qabs (unitPrice demoEnv (bookingFor "2" 3) 0 * effectiveQuantity (bookingFor "2" 3))
   <= exactAmountBound)%Q /\
  exists d : BookingData.t,
    settle (createBooking demoEnv (bookingFor "2" 3)) 0 = Resolved (simulated d) /\
    is_integer (BookingData.total d).
Proof.
  assert (Hp : is_integer (unitPrice demoEnv (bookingFor "2" 3) 0))
    by (vm_compute; reflexivity).
  assert (Hq : is_integer (effectiveQuantity (bookingFor "2" 3)))
    by (vm_compute; reflexivity).
  assert (Hb : (Qabs (unitPrice demoEnv (bookingFor "2" 3) 0
                      * effectiveQuantity (bookingFor "2" 3)) <= exactAmountBound)%Q)
    by (vm_compute; discriminate).
  split; [apply demoEnv_fallback |]. split; [exact Hp |]. split; [exact Hq |].
  split; [exact Hb |].
  destruct (createBooking_static_total_bounds demoEnv (bookingFor "2" 3) 0
              (demoEnv_fallback _) Hp Hq Hb) as (d & Hd & _ & _ & _ & Hint & _).
  exists d. split; [exact Hd | exact Hint].
Defined.

(** X12 at a request for minus two. *)
Lemma createBooking_static_accepts_negative_quantity_witness :
  fallback demoEnv (api_post_bookings demoEnv (bookingFor "1" (-2))) /\
  (0 < unitPrice demoEnv (bookingFor "1" (-2)) 0)%Q /\
  (BookingRequest.quantity (bookingFor "1" (-2)) < 0)%Q /\
  exists d : BookingData.t,
    settle (createBooking demoEnv (bookingFor "1" (-2))) 0 = Resolved (simulated d) /\
    (BookingData.total d < 0)%Q.
Proof.
  assert (Hp : (0 < unitPrice demoEnv (bookingFor "1" (-2)) 0)%Q) by (vm_compute; reflexivity).
  assert (Hq : (BookingRequest.quantity (bookingFor "1" (-2)) < 0)%Q)
    by (vm_compute; reflexivity).
  split; [apply demoEnv_fallback |]. split; [exact Hp |]. split; [exact Hq |].
  destruct (createBooking_static_accepts_negative_quantity demoEnv (bookingFor "1" (-2)) 0
              (demoEnv_fallback _) Hp Hq) as (d & Hd & _ & Ht).
  exists d. split; [exact Hd | exact Ht].
Defined.

(** X13 at a backend whose bookings endpoint is down. *)
Lemma createBooking_static_prices_from_backend_witness :
  configured halfEnv = true /\
  api_post_bookings halfEnv (bookingFor "1" 2) = Rejected networkError /\
  api_get_experience halfEnv "1" = Resolved remoteKayaking /\
  exists d : BookingData.t,
    createBooking halfEnv (bookingFor "1" 2) 0 = (Resolved (simulated d), 1%nat) /\
    BookingData.total d = (1500 * 2 + inject_Z (Math_round (1500 * 2 * 0.05)))%Q /\
    (total_binary64 1500 2 == BookingData.total d)%Q.
Proof.
  split; [reflexivity |]. split; [reflexivity |]. split; [reflexivity |].
  destruct (createBooking_static_prices_from_backend halfEnv (bookingFor "1" 2) 0
              networkError remoteKayaking eq_refl eq_refl eq_refl) as (d & Hd & _ & Ht & _).
  exists d. split; [exact Hd |].
  apply Ht; [vm_compute; reflexivity | vm_compute; reflexivity | vm_compute; discriminate].
Defined.

(** X14 at a request for an experience that the document does not have. *)
Lemma createBooking_static_names_the_experience_witness :
  fallback downEnv (api_post_bookings downEnv (bookingFor "42" 1)) /\
  exists d : BookingData.t,
    settle (createBooking downEnv (bookingFor "42" 1)) 0 = Resolved (simulated d) /\
    BookingData.experienceName d = "Experience".
Proof.
  split; [apply downEnv_fallback; reflexivity |].
  destruct (createBooking_static_names_the_experience downEnv (bookingFor "42" 1) 0
              (downEnv_fallback _ eq_refl)) as (d & Hd & _ & _ & _ & _ & Hname).
  exists d. split; [exact Hd |].
  apply (Hname NotFoundError). vm_compute. reflexivity.
Defined.

(** X15 at "save10" and "Save10". *)
Lemma validatePromoCode_static_ignores_case_witness :
  fallback downEnv (api_post_promo downEnv "save10" 1000) /\
  fallback downEnv (api_post_promo downEnv "Save10" 1000) /\
  toUpperCase "save10" = toUpperCase "Save10" /\
  settle (validatePromoCode downEnv "save10" 1000) 0
  = settle (validatePromoCode downEnv "Save10" 1000) 3.
Proof.
  split; [apply downEnv_fallback; reflexivity |].
  split; [apply downEnv_fallback; reflexivity |]. split; [reflexivity |].
  apply (validatePromoCode_static_ignores_case downEnv "save10" "Save10" 1000 0 3
           (downEnv_fallback _ eq_refl) (downEnv_fallback _ eq_refl) eq_refl).
Defined.

(** X16 at the flat promotion and a subtotal of 50. *)
Lemma validatePromoCode_static_discount_bounds_witness :
  fallback demoEnv (api_post_promo demoEnv "flat100" 50) /\
  exists v pd,
    settle (validatePromoCode demoEnv "flat100" 50) 0 = Resolved v /\
    PromoValidation.data v = Some pd /\
    (50 < PromoData.discount pd)%Q.
Proof.
  split; [apply demoEnv_fallback |].
  eexists _, _. split; [vm_compute; reflexivity |]. split; [reflexivity |].
  destruct (validatePromoCode_static_discount_bounds demoEnv "flat100" 50 0 _ _
              (demoEnv_fallback _) eq_refl eq_refl) as (_ & _ & _ & Hflat).
  destruct (Hflat eq_refl) as [_ H]. apply H. reflexivity.
Defined.

(** X17 at SAVE10 and the subtotals 100 and 1000. *)
Lemma validatePromoCode_static_discount_monotone_witness :
  fallback demoEnv (api_post_promo demoEnv "save10" 100) /\
  fallback demoEnv (api_post_promo demoEnv "save10" 1000) /\
  promos !! toUpperCase "save10" = Some (percentPromo 10) /\
  (100 <= 1000)%Q /\
  exists d1 d2 : number,
    settle (validatePromoCode demoEnv "save10" 100) 0
    = Resolved (promoSuccess "SAVE10" (percentPromo 10) d1) /\
    settle (validatePromoCode demoEnv "save10" 1000) 0
    = Resolved (promoSuccess "SAVE10" (percentPromo 10) d2) /\
    (d1 <= d2)%Q.
Proof.
  assert (Hp : promos !! toUpperCase "save10" = Some (percentPromo 10))
    by (vm_compute; reflexivity).
  assert (Hs : (100 <= 1000)%Q) by (vm_compute; discriminate).
  split; [apply demoEnv_fallback |]. split; [apply demoEnv_fallback |].
  split; [exact Hp |]. split; [exact Hs |].
  exact (validatePromoCode_static_discount_monotone demoEnv "save10" 100 1000 0 0
           (percentPromo 10) (demoEnv_fallback _) (demoEnv_fallback _) Hp Hs).
Defined.

(** X18 at the entry 1 of the sample document, on the sample clock. *)
Lemma synthesized_slot_ids_are_distinct_witness :
  fallback demoEnv (api_get_experience demoEnv "1") /\
  fixed_offset demoEnv 19800000 /\
  (forall i, (i < 4)%nat -> (clock demoEnv (0 + i) <= clock demoEnv (0 + S i))%Z) /\
  (forall i, (i < 5)%nat ->
     (0 <= Date.YearFromTime (slotInstant demoEnv 0 i) <= 9999)%Z) /\
  exists d : ExperienceDetail.t,
    settle (getExperienceById demoEnv "1") 0 = Resolved d /\
    NoDup (map Slot.id (ExperienceDetail.slots d)).
Proof.
  assert (Hclock : forall i, (i < 4)%nat ->
            (clock demoEnv (0 + i) <= clock demoEnv (0 + S i))%Z)
    by (intros i _; simpl; lia).
  assert (Hyears : forall i, (i < 5)%nat ->
            (0 <= Date.YearFromTime (slotInstant demoEnv 0 i) <= 9999)%Z).
  { intros i Hi.
    do 5 (destruct i as [| i]; [vm_compute; split; discriminate |]). lia. }
  split; [apply demoEnv_fallback |]. split; [intros x b; reflexivity |].
  split; [exact Hclock |]. split; [exact Hyears |].
  destruct (synthesized_slot_ids_are_distinct demoEnv demoJson kayaking "1" 0 19800000
              (demoEnv_fallback _) eq_refl kayaking_first (or_introl eq_refl)
              (fun _ _ => eq_refl) Hclock Hyears) as (d & Hd & _ & Hids).
  exists d. split; [exact Hd | exact Hids].
Defined.

(** ** The first date and the day of the host *)

Lemma first_day_in_local_terms (local o : Z) :
  (- Date.msPerDay < o < Date.msPerDay)%Z ->
  let first := Date.Day (local + Date.msPerDay - o) in
  ((0 <= o)%Z -> (Date.TimeWithinDay local < o)%Z -> first = Date.Day local) /\
  ((0 <= o)%Z -> (o <= Date.TimeWithinDay local)%Z -> first = (Date.Day local + 1)%Z) /\
  ((o < 0)%Z -> (Date.TimeWithinDay local < Date.msPerDay + o)%Z ->
   first = (Date.Day local + 1)%Z) /\
  ((o < 0)%Z -> (Date.msPerDay + o <= Date.TimeWithinDay local)%Z ->
   first = (Date.Day local + 2)%Z).
Proof.
  unfold Date.Day, Date.TimeWithinDay, Date.msPerDay. intros Ho.
  cbv zeta. repeat split; intros; Z.to_euclidean_division_equations; lia.
Qed.

(** X19. The first date of a synthesized schedule is a UTC date reached
    from the local day of the host. With [o] the offset from UTC in force
    on the host at its present local time of day one day later: when the
    host is then east of UTC ([0 <= o]) the first date is the host's own
    current day while its local time of day is below [o], and the next day
    after that; when it is then west of UTC ([o < 0]) the first date is the
    next day, and the day after that once the local time of day is within
    [- o] of midnight. *)
Theorem first_synthesized_date_and_local_day
    (env : Env) (json : StaticJson.t) (found : RawExperience.t) (id : string) (t : nat) :
  fallback env (api_get_experience env id) ->
  fetch_static env = Resolved json ->
  first_with_id id (experiences_or_empty json) found ->
  no_slots found ->
  let local := Date.LocalTime (LocalTZA env) (clock env t) in
  let o := LocalTZA env (local + Date.msPerDay)%Z false in
  let first := Date.Day (slotInstant env t 0) in
  (- Date.msPerDay < o < Date.msPerDay)%Z ->
  exists (d : ExperienceDetail.t) (s : Slot.t),
    settle (getExperienceById env id) t = Resolved d /\
    head (ExperienceDetail.slots d) = Some s /\
    Slot.date s = isoDate (slotInstant env t 0) /\
    ((0 <= o)%Z -> (Date.TimeWithinDay local < o)%Z -> first = Date.Day local) /\
    ((0 <= o)%Z -> (o <= Date.TimeWithinDay local)%Z -> first = (Date.Day local + 1)%Z) /\
    ((o < 0)%Z -> (Date.TimeWithinDay local < Date.msPerDay + o)%Z ->
     first = (Date.Day local + 1)%Z) /\
    ((o < 0)%Z -> (Date.msPerDay + o <= Date.TimeWithinDay local)%Z ->
     first = (Date.Day local + 2)%Z).
Proof.
  intros Hfb Hjson Hfound Hno local o first Ho.
  destruct (getExperienceById_synthesized_run env json found id t Hfb Hjson Hfound Hno)
    as (d & Hrun & Hslots).
  exists d, (synthesized id (isoDate (slotInstant env t 0)) "07:00 am" 4).
  split; [unfold settle; by rewrite Hrun |].
  split; [by rewrite Hslots |]. split; [reflexivity |].
  assert (Hfirst : first = Date.Day (local + Date.msPerDay - o)).
  { subst first o local. unfold slotInstant, Date.UTC. rewrite Nat.add_0_r.
    change (Z.of_nat 0 + 1)%Z with 1%Z. by rewrite Z.mul_1_l. }
  rewrite Hfirst. apply first_day_in_local_terms. exact Ho.
Qed.

(** ** The reference of a simulated booking *)

Lemma Z_to_int_proper (z : Z) :
  Z.to_int z <> Decimal.Pos Decimal.Nil /\ Z.to_int z <> Decimal.Neg Decimal.Nil.
Proof.
  split; intros H; pose proof (DecimalZ.of_to z) as E; rewrite H in E;
    cbn in E; subst z; discriminate H.
Qed.

Lemma String_of_Z_inj (a b : Z) : String_of_Z a = String_of_Z b -> a = b.
Proof.
  unfold String_of_Z. intros E.
  destruct (Z_to_int_proper a) as [Ha1 Ha2], (Z_to_int_proper b) as [Hb1 Hb2].
  pose proof (NilZero.isi (Z.to_int a) Ha1 Ha2) as Ia.
  pose proof (NilZero.isi (Z.to_int b) Hb1 Hb2) as Ib.
  rewrite E, Ib in Ia. injection Ia as Ia.
  rewrite <- (DecimalZ.of_to a), <- (DecimalZ.of_to b). by rewrite Ia.
Qed.

(** X20. The reference of a simulated booking is "DEMO-" and nothing but
    the clock reading: two simulated bookings, of any requests on any
    hosts, have the same reference exactly when their clock readings are
    the same. *)
Theorem bookingRef_is_the_clock_reading
    (env1 env2 : Env) (b1 b2 : BookingRequest.t) (t1 t2 : nat) :
  fallback env1 (api_post_bookings env1 b1) ->
  fallback env2 (api_post_bookings env2 b2) ->
  exists d1 d2 : BookingData.t,
    settle (createBooking env1 b1) t1 = Resolved (simulated d1) /\
    settle (createBooking env2 b2) t2 = Resolved (simulated d2) /\
    (BookingData.bookingRef d1 = BookingData.bookingRef d2 <->
     clock env1 (lookupTicks env1 b1 t1) = clock env2 (lookupTicks env2 b2 t2)).
Proof.
  intros H1 H2. unfold settle.
  rewrite !createBooking_fallback, !createBooking_static_run by assumption.
  eexists _, _. split; [reflexivity |]. split; [reflexivity |].
  cbn [BookingData.bookingRef]. split.
  - intros E. apply append_inv_head in E. by apply String_of_Z_inj.
  - by intros ->.
Qed.

(** X19 at the host on Pacific time on which it is 16:30 on the day
    before the end of daylight saving time: the first date is two days
    after the local day. *)
Lemma first_synthesized_date_and_local_day_witness :
  fallback pacificEnv (api_get_experience pacificEnv "1") /\
  (let local := Date.LocalTime (LocalTZA pacificEnv) (clock pacificEnv 0) in
   let o := LocalTZA pacificEnv (local + Date.msPerDay)%Z false in
   (- Date.msPerDay < o < Date.msPerDay)%Z /\
   Date.Day (slotInstant pacificEnv 0 0) = (Date.Day local + 2)%Z).
Proof.
  split; [left; reflexivity |]. cbv zeta.
  assert (Ho : (- Date.msPerDay
                < LocalTZA pacificEnv
                    (Date.LocalTime (LocalTZA pacificEnv) (clock pacificEnv 0)
                     + Date.msPerDay)%Z false
                < Date.msPerDay)%Z) by (vm_compute; split; reflexivity).
  split; [exact Ho |].
  destruct (first_synthesized_date_and_local_day pacificEnv demoJson kayaking "1" 0
              (or_introl eq_refl) eq_refl kayaking_first (or_introl eq_refl) Ho)
    as (d & s & _ & _ & _ & _ & _ & _ & H).
  apply H; vm_compute; [reflexivity | discriminate].
Defined.

(** X20 at two requests on two hosts whose clocks agree. *)
Lemma bookingRef_is_the_clock_reading_witness :
  fallback demoEnv (api_post_bookings demoEnv (bookingFor "2" 1)) /\
  fallback downEnv (api_post_bookings downEnv (bookingFor "42" 3)) /\
  exists d1 d2 : BookingData.t,
    settle (createBooking demoEnv (bookingFor "2" 1)) 0 = Resolved (simulated d1) /\
    settle (createBooking downEnv (bookingFor "42" 3)) 0 = Resolved (simulated d2) /\
    BookingData.bookingRef d1 = BookingData.bookingRef d2.
Proof.
  split; [apply demoEnv_fallback |]. split; [apply downEnv_fallback; reflexivity |].
  destruct (bookingRef_is_the_clock_reading demoEnv downEnv
              (bookingFor "2" 1) (bookingFor "42" 3) 0 0
              (demoEnv_fallback _) (downEnv_fallback _ eq_refl)) as (d1 & d2 & H1 & H2 & H).
  exists d1, d2. split; [exact H1 |]. split; [exact H2 |].
  apply H. vm_compute. reflexivity.
Defined.

(** ** Schedules that do not start tomorrow *)

